(** * Waste classifier front end: the request life cycle of [src/App.jsx]

    A shallow embedding of the [App] component: its four React state cells,
    the handlers [showMessage], [handleFileChange], [handleClassify] and
    [formatResults], and the small part of the browser they talk to (timers,
    [FileReader], [fetch], the console).  Handlers are written in a monad that
    logs the effects they request and carries the exception of a [throw];
    an interpreter then applies the logged effects to the page state. *)

From Stdlib Require Import ZArith List String Ascii Bool Lia.
From Stdlib Require Import Floats DecimalString Strings.Byte.
From Stdlib Require DecimalN.
Import ListNotations.

Set Warnings "-register-all,-inexact-float".

Open Scope string_scope.
Open Scope list_scope.
Open Scope Z_scope.

(** ** JavaScript values *)

(** The values the component handles: what [JSON.parse] builds from a response
    body, plus [undefined] (the result of reading a property that is not
    there).  An object is the ordered list of its own properties, the order
    being the one the raw dump of the result shows. *)
Inductive value : Type :=
| VUndefined
| VNull
| VBool (b : bool)
| VNum (n : float)
| VStr (s : string)
| VArr (items : list value)
| VObj (props : list (string * value)).

(** What a [throw] carries. *)
Inductive error : Type :=
| TypeError (what : string)
| SyntaxError (what : string).

(** [!v] is [negb (truthy v)]: [undefined], [null], [false], [0], [-0], [NaN]
    and the empty string are falsy, everything else (every array and object
    included) is truthy. *)
Definition truthy (v : value) : bool :=
  match v with
  | VUndefined | VNull => false
  | VBool b => b
  | VNum n => negb (PrimFloat.is_zero n || PrimFloat.is_nan n)
  | VStr s => negb (String.eqb s "")
  | VArr _ | VObj _ => true
  end.

(** [a || b] *)
Definition js_or (a b : value) : value := if truthy a then a else b.

(** [Array.isArray(v)] *)
Definition isArray (v : value) : bool :=
  match v with VArr _ => true | _ => false end.

Fixpoint own_property (k : string) (props : list (string * value)) : value :=
  match props with
  | [] => VUndefined
  | (k', v) :: rest => if String.eqb k k' then v else own_property k rest
  end.

(** [v.k], for the property names the component reads ([error], [details],
    [results], [predictions], [class], [confidence]): none of them is defined
    on a prototype, so the read finds an own property of an object or nothing;
    on [null] and [undefined] it throws. *)
Definition get_property (v : value) (k : string) : error + value :=
  match v with
  | VUndefined => inl (TypeError ("Cannot read properties of undefined (reading '" ++ k ++ "')")%string)
  | VNull => inl (TypeError ("Cannot read properties of null (reading '" ++ k ++ "')")%string)
  | VObj props => inr (own_property k props)
  | VBool _ | VNum _ | VStr _ | VArr _ => inr VUndefined
  end.

(** [v?.k] *)
Definition get_optional (v : value) (k : string) : error + value :=
  match v with
  | VUndefined | VNull => inr VUndefined
  | _ => get_property v k
  end.

(** ** Numbers: [* 100] and [toFixed] *)

(** [ToNumber] on the primitives that need no parsing.  A string, an array or
    an object is converted through the engine's numeric-literal grammar
    ([ToPrimitive], [StringToNumber]), which is outside this development:
    [None] marks those operands. *)
Definition ToNumber (v : value) : option float :=
  match v with
  | VUndefined => Some PrimFloat.nan
  | VNull => Some 0%float
  | VBool b => Some (if b then 1%float else 0%float)
  | VNum n => Some n
  | VStr _ | VArr _ | VObj _ => None
  end.

(** [v * 100] *)
Definition times100 (v : value) : option float :=
  option_map (fun n => PrimFloat.mul n 100%float) (ToNumber v).

Definition digit (d : Z) : ascii := ascii_of_N (48 + Z.to_N d).

(** The [k] low decimal digits of [r], most significant first. *)
Fixpoint low_digits (k : nat) (r : Z) : string :=
  match k with
  | O => ""
  | S k' => (low_digits k' (r / 10) ++ String (digit (r mod 10)) "")%string
  end.

(** Decimal representation of a natural number, no leading zero ("0" for 0). *)
Definition decimal (n : Z) : string := NilZero.string_of_uint (N.to_uint (Z.to_N n)).

(** The integer [n] for which [n / 10^fd] is closest to [m * 2^e]; of two
    equally close ones the larger (step 9.a of [Number.prototype.toFixed]). *)
Definition nearest_scaled (fd : nat) (m e : Z) : Z :=
  let p := m * 10 ^ Z.of_nat fd in
  if 0 <=? e then p * 2 ^ e
  else (2 * p + 2 ^ (- e)) / 2 ^ (- e + 1).

(** [10^21 <= m * 2^e] *)
Definition at_least_1e21 (m e : Z) : bool :=
  if 0 <=? e then 10 ^ 21 <=? m * 2 ^ e
  else 10 ^ 21 * 2 ^ (- e) <=? m.

Definition fixed_notation (fd : nat) (n : Z) : string :=
  match fd with
  | O => decimal n
  | _ => (decimal (n / 10 ^ Z.of_nat fd) ++ "." ++ low_digits fd n)%string
  end.

(** [x.toFixed(fd)], for [0 <= fd <= 100].  A magnitude of [10^21] or more is
    printed by [Number::toString] in exponent notation, which is outside this
    development: [None] marks that range. *)
Definition toFixed (fd : nat) (x : float) : option string :=
  match Prim2SF x with
  | S754_nan => Some "NaN"
  | S754_infinity false => Some "Infinity"
  | S754_infinity true => Some "-Infinity"
  | S754_zero _ => Some (fixed_notation fd 0)
  | S754_finite s m e =>
      if at_least_1e21 (Z.pos m) e then None
      else Some ((if s then "-" else "") ++
                 fixed_notation fd (nearest_scaled fd (Z.pos m) e))%string
  end.

(** ** Files and [FileReader] *)

(** What the component sees of a picked file: the size the browser reports
    and the MIME type the browser attached to it. *)
Record File : Type := { file_name : string; size : Z; mime : string }.

Definition base64_alphabet : string :=
  "ABCDEFGHIJKLMNOPQRSTUVWXYZabcdefghijklmnopqrstuvwxyz0123456789+/".

Definition sextet (n : Z) : ascii :=
  match String.get (Z.to_nat (Z.land n 63)) base64_alphabet with
  | Some c => c
  | None => "="%char
  end.

Definition octet (b : Byte.byte) : Z := Z.of_N (Byte.to_N b).

(** RFC 4648 base64 with padding. *)
Fixpoint base64 (bytes : list Byte.byte) : string :=
  match bytes with
  | [] => ""
  | [a] =>
      let n := Z.shiftl (octet a) 16 in
      String (sextet (Z.shiftr n 18)) (String (sextet (Z.shiftr n 12)) "==")
  | [a; b] =>
      let n := Z.lor (Z.shiftl (octet a) 16) (Z.shiftl (octet b) 8) in
      String (sextet (Z.shiftr n 18)) (String (sextet (Z.shiftr n 12))
        (String (sextet (Z.shiftr n 6)) "="))
  | a :: b :: c :: rest =>
      let n := Z.lor (Z.lor (Z.shiftl (octet a) 16) (Z.shiftl (octet b) 8)) (octet c) in
      String (sextet (Z.shiftr n 18)) (String (sextet (Z.shiftr n 12))
        (String (sextet (Z.shiftr n 6)) (String (sextet n) (base64 rest))))
  end.

(** The data URL [readAsDataURL] builds; a file without a MIME type is
    labelled [application/octet-stream], as browsers do. *)
Definition dataURL (f : File) (bytes : list Byte.byte) : string :=
  ("data:" ++ (if String.eqb (mime f) "" then "application/octet-stream" else mime f)
   ++ ";base64," ++ base64 bytes)%string.

Inductive read_outcome : Type :=
| ReadDone (bytes : list Byte.byte)
| ReadFailed.

(** [reader.result] when [loadend] is dispatched: the data URL after a
    successful read, [null] after a failed one. *)
Definition reader_result (f : File) (o : read_outcome) : value :=
  match o with
  | ReadDone bytes => VStr (dataURL f bytes)
  | ReadFailed => VNull
  end.

(** ** Effects *)

(** [{ type, text }], the content of the [message] state cell. *)
Record Message : Type := { type : string; text : value }.

(** [() => setMessage(null)], the only function handed to [setTimeout]. *)
Inductive timer_callback : Type := ClearMessage.

(** [() => setImage(reader.result)], the only [onloadend] handler. *)
Inductive reader_callback : Type := StoreReaderResult.

(** The second argument of [fetch]; [body] is the value given to
    [JSON.stringify]. *)
Record RequestInit : Type :=
  { method : string; headers : list (string * string); body : value }.

Inductive effect : Type :=
| SetImage (v : value)
| SetResult (v : value)
| SetLoading (b : bool)
| SetMessage (m : option Message)
| SetTimeout (callback : timer_callback) (delay : Z)
| SetInputValue (v : string)
| ReadAsDataURL (file : File) (onloadend : reader_callback)
| Fetch (url : string) (init : RequestInit)
| ConsoleError (label : string) (arg : value + error).

(** How a handler ends: it returns, it throws, or it stays suspended at an
    [await] whose promise never settles. *)
Inductive completion (A : Type) : Type :=
| Returned (a : A)
| Thrown (e : error)
| Suspended.
Arguments Returned {A} a.
Arguments Thrown {A} e.
Arguments Suspended {A}.

(** A handler: the effects it requested, in order, and how it ended. *)
Definition M (A : Type) : Type := (list effect * completion A)%type.

Definition ret {A} (a : A) : M A := ([], Returned a).

Definition bind {A B} (m : M A) (k : A -> M B) : M B :=
  match m with
  | (l, Returned a) => let (l', c) := k a in (l ++ l', c)
  | (l, Thrown e) => (l, Thrown e)
  | (l, Suspended) => (l, Suspended)
  end.

Definition emit (e : effect) : M unit := ([e], Returned tt).

(** Reading a property: returns or throws, no effect. *)
Definition lift {A} (r : error + A) : M A :=
  match r with
  | inl e => ([], Thrown e)
  | inr a => ([], Returned a)
  end.

(** [await p], for a promise that fulfils, rejects, or never settles. *)
Definition await {A} (p : option (error + A)) : M A :=
  match p with
  | Some (inr a) => ([], Returned a)
  | Some (inl e) => ([], Thrown e)
  | None => ([], Suspended)
  end.

(** [try { body } catch (err) { handler err }] *)
Definition catch (body : M unit) (handler : error -> M unit) : M unit :=
  match body with
  | (l, Thrown e) => let (l', c) := handler e in (l ++ l', c)
  | other => other
  end.

(** [try { body } finally { cleanup }]: the cleanup runs when the body has
    returned or thrown (the exception then goes on), not while it is
    suspended. *)
Definition finally (body : M unit) (cleanup : M unit) : M unit :=
  match body with
  | (l, Returned _) => let (l', c) := cleanup in (l ++ l', c)
  | (l, Thrown e) =>
      match cleanup with
      | (l', Returned _) => (l ++ l', Thrown e)
      | (l', c) => (l ++ l', c)
      end
  | (l, Suspended) => (l, Suspended)
  end.

Definition log {A} (m : M A) : list effect := fst m.
Definition outcome {A} (m : M A) : completion A := snd m.

Declare Scope handler_scope.
Delimit Scope handler_scope with handler.
Notation "x <- c ;; k" := (bind c (fun x => k))
  (at level 61, c at next level, right associativity) : handler_scope.
Notation "c ;; k" := (bind c (fun _ => k))
  (at level 61, right associativity) : handler_scope.
Open Scope handler_scope.

(** ** The page state *)

(** The four [useState] cells of [App], then the part of the browser the
    handlers act on: the value of the file input, the clock and the pending
    timers (with the time each is due), the reads in progress, the requests
    sent and the console. *)
Record State : Type :=
  { image : value;
    result : value;
    loading : bool;
    message : option Message;
    inputValue : string;
    now : Z;
    timers : list (Z * timer_callback);
    reads : list (File * reader_callback);
    requests : list (string * RequestInit);
    console : list (string * (value + error)) }.

(** [useState(null)] three times and [useState(false)]; nothing pending. *)
Definition initial : State :=
  {| image := VNull; result := VNull; loading := false; message := None;
     inputValue := ""; now := 0; timers := []; reads := [];
     requests := []; console := [] |}.

Definition apply_effect (s : State) (e : effect) : State :=
  match e with
  | SetImage v =>
      {| image := v; result := result s; loading := loading s; message := message s;
         inputValue := inputValue s; now := now s; timers := timers s;
         reads := reads s; requests := requests s; console := console s |}
  | SetResult v =>
      {| image := image s; result := v; loading := loading s; message := message s;
         inputValue := inputValue s; now := now s; timers := timers s;
         reads := reads s; requests := requests s; console := console s |}
  | SetLoading b =>
      {| image := image s; result := result s; loading := b; message := message s;
         inputValue := inputValue s; now := now s; timers := timers s;
         reads := reads s; requests := requests s; console := console s |}
  | SetMessage m =>
      {| image := image s; result := result s; loading := loading s; message := m;
         inputValue := inputValue s; now := now s; timers := timers s;
         reads := reads s; requests := requests s; console := console s |}
  | SetTimeout cb delay =>
      {| image := image s; result := result s; loading := loading s; message := message s;
         inputValue := inputValue s; now := now s;
         timers := timers s ++ [(now s + delay, cb)];
         reads := reads s; requests := requests s; console := console s |}
  | SetInputValue v =>
      {| image := image s; result := result s; loading := loading s; message := message s;
         inputValue := v; now := now s; timers := timers s;
         reads := reads s; requests := requests s; console := console s |}
  | ReadAsDataURL f cb =>
      {| image := image s; result := result s; loading := loading s; message := message s;
         inputValue := inputValue s; now := now s; timers := timers s;
         reads := reads s ++ [(f, cb)]; requests := requests s; console := console s |}
  | Fetch url init =>
      {| image := image s; result := result s; loading := loading s; message := message s;
         inputValue := inputValue s; now := now s; timers := timers s;
         reads := reads s; requests := requests s ++ [(url, init)]; console := console s |}
  | ConsoleError label arg =>
      {| image := image s; result := result s; loading := loading s; message := message s;
         inputValue := inputValue s; now := now s; timers := timers s;
         reads := reads s; requests := requests s; console := console s ++ [(label, arg)] |}
  end.

(** The effects of a log, applied in order. *)
Definition run (l : list effect) (s : State) : State := fold_left apply_effect l s.

(** ** The component *)

(** [showMessage], lines 50-53. *)
Definition showMessage (type : string) (text : value) : M unit :=
  emit (SetMessage (Some {| type := type; text := text |})) ;;
  emit (SetTimeout ClearMessage 5000).

(** [e.target.files]: absent, or the list of picked files. *)
Record ChangeEvent : Type := { files : option (list File) }.

(** [e.target.files?.[0]] *)
Definition first_file (e : ChangeEvent) : option File :=
  match files e with
  | Some (f :: _) => Some f
  | _ => None
  end.

(** [handleFileChange], lines 55-70. *)
Definition handleFileChange (e : ChangeEvent) : M unit :=
  match first_file e with
  | None => ret tt
  | Some file =>
      if size file >? 10 * 1024 * 1024 then
        showMessage "error" (VStr "File size exceeds the 10MB limit.") ;;
        emit (SetInputValue "") ;;
        emit (SetImage VNull)
      else
        emit (ReadAsDataURL file StoreReaderResult) ;;
        emit (SetResult VNull)
  end.

(** What a response gives the handler: its status and what [res.json()]
    settles to (it rejects on a body that is not JSON). *)
Record Response : Type := { status : Z; json : option (error + value) }.

(** [res.ok]: the status is in the range 200-299. *)
Definition ok (res : Response) : bool := (200 <=? status res) && (status res <=? 299).

Definition endpoint : string := "https://backend-0pwz.onrender.com/api/classify".

(** [fetch(url, init)]: the request goes out, and the promise settles as the
    network decides ([net]): it fulfils with a response, rejects, or stays
    pending. *)
Definition fetch (net : option (error + Response)) (url : string) (init : RequestInit)
    : M Response :=
  emit (Fetch url init) ;; await net.

(** [handleClassify], lines 72-111.  [image] is the state cell the handler
    closes over. *)
Definition handleClassify (image : value) (net : option (error + Response)) : M unit :=
  if negb (truthy image) then
    showMessage "info" (VStr "Please upload an image first.")
  else
    emit (SetLoading true) ;;
    emit (SetResult VNull) ;;
    emit (SetMessage None) ;;
    finally
      (catch
         (res <- fetch net endpoint
                   {| method := "POST";
                      headers := [("Content-Type", "application/json")];
                      body := VObj [("imageData", image)] |} ;;
          data <- await (json res) ;;
          if negb (ok res) then
            err <- lift (get_property data "error") ;;
            let errorMessage :=
              js_or err (VStr "An unknown classification error occurred.") in
            showMessage "error" errorMessage ;;
            details <- lift (get_property data "details") ;;
            emit (ConsoleError "Classification API Error:" (inl (js_or details data)))
          else
            results <- lift (get_property data "results") ;;
            predictions <- lift (get_optional results "predictions") ;;
            emit (SetResult (js_or predictions (VArr []))) ;;
            showMessage "success" (VStr "Image classified successfully!"))
         (fun err =>
            emit (ConsoleError "Classification error:" (inr err)) ;;
            showMessage "error" (VStr "Failed to connect to the backend server.")))
      (emit (SetLoading false)).

(** An expression of the render path: it has a value, throws, or leaves the
    fragment of the language modelled here (see [ToNumber], [toFixed]). *)
Inductive evaluation (A : Type) : Type :=
| Value (a : A)
| Throws (e : error)
| Unmodelled.
Arguments Value {A} a.
Arguments Throws {A} e.
Arguments Unmodelled {A}.

(** One [<div key={index}>] of the result list: the child of the label
    [<span>], and the text of the confidence paragraph after "Confidence: ". *)
Record Line : Type := { key : nat; label : value; confidence : string }.

Inductive rendering : Type :=
| Text (s : string)
| Lines (l : list Line).

(** The arrow function given to [res.map], lines 115-124. *)
Definition format_item (item : value) (index : nat) : evaluation Line :=
  match get_property item "class" with
  | inl e => Throws e
  | inr cls =>
      match get_property item "confidence" with
      | inl e => Throws e
      | inr conf =>
          match times100 conf with
          | None => Unmodelled
          | Some x =>
              match toFixed 2 x with
              | None => Unmodelled
              | Some digits =>
                  Value {| key := index; label := cls;
                           confidence := (digits ++ "%")%string |}
              end
          end
      end
  end.

(** [items.map(f)], the elements visited in order from index [index]. *)
Fixpoint map_from {A} (f : value -> nat -> evaluation A) (index : nat)
    (items : list value) : evaluation (list A) :=
  match items with
  | [] => Value []
  | item :: rest =>
      match f item index with
      | Value a =>
          match map_from f (S index) rest with
          | Value l => Value (a :: l)
          | Throws e => Throws e
          | Unmodelled => Unmodelled
          end
      | Throws e => Throws e
      | Unmodelled => Unmodelled
      end
  end.

(** [formatResults], lines 113-125. *)
Definition formatResults (res : value) : evaluation rendering :=
  if negb (truthy res) || negb (isArray res) then Value (Text "No data returned.")
  else
    match res with
    | VArr items =>
        match map_from format_item 0 items with
        | Value l => Value (Lines l)
        | Throws e => Throws e
        | Unmodelled => Unmodelled
        end
    | _ => Value (Text "No data returned.")
    end.

(** The result panel, lines 169-183: rendered only for a truthy [result]. *)
Definition resultPanel (s : State) : option (evaluation rendering) :=
  if truthy (result s) then Some (formatResults (result s)) else None.

(** The notification for which [MessageBox] returns an element, lines 5-6 and
    186-190: the one in the cell, unless the cell is [null] or the text is
    falsy.  What React then paints for the text is [renderChild]. *)
Definition visible (s : State) : option Message :=
  match message s with
  | Some m => if truthy (text m) then Some m else None
  | None => None
  end.

(** [disabled={loading || !image}], line 162. *)
Definition submitDisabled (s : State) : bool := loading s || negb (truthy (image s)).

(** ** The browser's side *)

(** A timer that is due runs its callback. *)
Definition fire (s : State) (t : Z * timer_callback) : State :=
  match snd t with
  | ClearMessage => run [SetMessage None] s
  end.

Definition due_by (t : Z) (tm : Z * timer_callback) : bool := fst tm <=? t.

(** [ms] milliseconds pass with no other event: the timers due by then fire,
    in the order they were set (all delays are equal, so that is the order in
    which they are due), and leave the list. *)
Definition elapse (ms : Z) (s : State) : State :=
  let t := now s + ms in
  fold_left fire (filter (due_by t) (timers s))
    {| image := image s; result := result s; loading := loading s; message := message s;
       inputValue := inputValue s; now := t;
       timers := filter (fun tm => negb (due_by t tm)) (timers s);
       reads := reads s; requests := requests s; console := console s |}.

Fixpoint remove_nth {A} (i : nat) (l : list A) : list A :=
  match l, i with
  | [], _ => []
  | _ :: rest, O => rest
  | x :: rest, S i' => x :: remove_nth i' rest
  end.

(** The [i]-th read in progress ends with outcome [o]: [loadend] is
    dispatched and the handler stores [reader.result]. *)
Definition loadend (i : nat) (o : read_outcome) (s : State) : State :=
  match nth_error (reads s) i with
  | None => s
  | Some (f, StoreReaderResult) =>
      run [SetImage (reader_result f o)]
        {| image := image s; result := result s; loading := loading s;
           message := message s; inputValue := inputValue s; now := now s;
           timers := timers s; reads := remove_nth i (reads s);
           requests := requests s; console := console s |}
  end.

(** [onClose={() => setMessage(null)}], line 189. *)
Definition dismiss : M unit := emit (SetMessage None).

(** The part of a log up to the [fetch] (what runs at the click), and the
    part after it (what runs once the promise has settled). *)
Fixpoint before_await (l : list effect) : list effect :=
  match l with
  | [] => []
  | Fetch url init :: _ => [Fetch url init]
  | e :: rest => e :: before_await rest
  end.

Fixpoint after_await (l : list effect) : list effect :=
  match l with
  | [] => []
  | Fetch _ _ :: rest => rest
  | _ :: rest => after_await rest
  end.

(** ** What a log shows *)

(** The notifications raised, in order. *)
Definition notifications (l : list effect) : list Message :=
  flat_map (fun e => match e with SetMessage (Some m) => [m] | _ => [] end) l.

(** The requests sent. *)
Definition network_calls (l : list effect) : list (string * RequestInit) :=
  flat_map (fun e => match e with Fetch url init => [(url, init)] | _ => [] end) l.

(** How many times [setLoading(false)] was called. *)
Definition busy_cleared (l : list effect) : nat :=
  List.length (filter (fun e => match e with SetLoading false => true | _ => false end) l).

(** The results stored. *)
Definition results_stored (l : list effect) : list value :=
  flat_map (fun e => match e with SetResult v => [v] | _ => [] end) l.

(** The component keeps no request-state cell.  The four-valued request state
    of the design is what one invocation of a handler reports through its
    log: [None] when [loading] is never written (the request state is left
    alone), busy when it is left set, and, once it is cleared, success or
    failure after the severity of the last notification raised. *)
Inductive RequestState : Type := Idle | Submitting | Succeeded | Failed.

Definition last_loading (l : list effect) : option bool :=
  last (flat_map (fun e => match e with SetLoading b => [Some b] | _ => [] end) l) None.

Definition request_outcome (l : list effect) : option RequestState :=
  match last_loading l with
  | None => None
  | Some true => Some Submitting
  | Some false =>
      match last (map Some (notifications l)) None with
      | Some m =>
          if String.eqb (type m) "success" then Some Succeeded
          else if String.eqb (type m) "error" then Some Failed
          else Some Idle
      | None => Some Idle
      end
  end.

(** A promise chain of [handleClassify] that settles: the request is
    answered or fails, and an answer's body is read to the end or fails. *)
Definition settled (net : option (error + Response)) : bool :=
  match net with
  | None => false
  | Some (inl _) => true
  | Some (inr res) => match json res with None => false | Some _ => true end
  end.

(** [mime] names an image type. *)
Definition image_type (f : File) : bool := String.prefix "image/" (mime f).

(** ** Percentages *)

Definition is_digit (c : ascii) : bool :=
  let n := N_of_ascii c in ((48 <=? n) && (n <=? 57))%N.

Fixpoint all_digits (s : string) : bool :=
  match s with
  | "" => true
  | String c rest => is_digit c && all_digits rest
  end.

(** [s] is one or more digits ([seen] tells that one was read already), a
    point, and exactly two digits. *)
Fixpoint whole_point_two (seen : bool) (s : string) : bool :=
  match s with
  | "" => false
  | String c rest =>
      if is_digit c then whole_point_two true rest
      else seen && Ascii.eqb c "." &&
           match rest with
           | String d1 (String d2 "") => is_digit d1 && is_digit d2
           | _ => false
           end
  end.

(** A decimal numeral with exactly two digits after the point, with or
    without a minus sign: "87.32", "0.00", "-0.50". *)
Definition two_decimals (s : string) : bool :=
  match s with
  | String c rest => if Ascii.eqb c "-" then whole_point_two false rest
                     else whole_point_two false s
  | "" => false
  end.

(** The numbers [toFixed] prints in fixed notation: the finite ones of
    magnitude below [10^21]. *)
Definition fixed_range (x : float) : bool :=
  match Prim2SF x with
  | S754_zero _ => true
  | S754_finite _ m e => negb (at_least_1e21 (Z.pos m) e)
  | S754_infinity _ | S754_nan => false
  end.

(** A number between 0 and 1, the range of a confidence. *)
Definition probability (c : float) : bool :=
  (PrimFloat.leb 0%float c && PrimFloat.leb c 1%float)%bool.

(** An entry whose [confidence] is a number that, times 100, is in that
    range. *)
Definition scored (item : value) : bool :=
  match get_property item "confidence" with
  | inr (VNum c) => fixed_range (PrimFloat.mul c 100%float)
  | _ => false
  end.

(** ** Sample inputs *)

Definition photo : File :=
  {| file_name := "bottle.jpg"; size := 2 * 1024 * 1024; mime := "image/jpeg" |}.

Definition scan : File :=
  {| file_name := "scan.tiff"; size := 11 * 1024 * 1024; mime := "image/tiff" |}.

Definition pick (f : File) : ChangeEvent := {| files := Some [f] |}.

Definition cancelled : ChangeEvent := {| files := Some [] |}.

Definition payload : value := VStr "data:image/jpeg;base64,/9j/4AAQ".

Definition info (s : string) : Message := {| type := "info"; text := VStr s |}.
Definition failure (s : string) : Message := {| type := "error"; text := VStr s |}.
Definition success (s : string) : Message := {| type := "success"; text := VStr s |}.

Definition entry (cls : string) (c : float) : value :=
  VObj [("class", VStr cls); ("confidence", VNum c)].

(** A page that holds a payload and shows the result of a classification. *)
Definition shown : State :=
  {| image := payload; result := VArr [entry "plastic" 0.912]; loading := false;
     message := Some (success "Image classified successfully!");
     inputValue := "C:\fakepath\bottle.jpg"; now := 1200;
     timers := [(6000, ClearMessage)]; reads := []; requests := []; console := [] |}.

(** ** The rest of the render *)

(** The icons of [lucide-react] the message box chooses from. *)
Inductive Icon : Type := AlertTriangle | CheckCircle | X.

(** What [MessageBox] returns when it returns an element: the colour classes
    and the icon picked by the [switch], and the child of the [<span>]. *)
Record Alert : Type := { colorClasses : string; icon : Icon; content : value }.

(** [MessageBox], lines 5-41.  The [switch] compares with [===], so only the
    strings "success" and "error" leave the default branch. *)
Definition MessageBox (type message : value) : option Alert :=
  if negb (truthy message) then None
  else
    Some
      match type with
      | VStr t =>
          if String.eqb t "success" then
            {| colorClasses := "bg-green-100 border border-green-400 text-green-700";
               icon := CheckCircle; content := message |}
          else if String.eqb t "error" then
            {| colorClasses := "bg-red-100 border border-red-400 text-red-700";
               icon := X; content := message |}
          else
            {| colorClasses := "bg-yellow-100 border border-yellow-400 text-yellow-700";
               icon := AlertTriangle; content := message |}
      | _ =>
          {| colorClasses := "bg-yellow-100 border border-yellow-400 text-yellow-700";
             icon := AlertTriangle; content := message |}
      end.

(** The element [MessageBox] returns to [App], lines 186-190:
    [type={message?.type || null}] and [message={message?.text || null}].
    Its [content] is the child given to the [<span>], any value; what React
    paints for that child is [renderChild]. *)
Definition messageBox (s : State) : option Alert :=
  match message s with
  | None => MessageBox (js_or VUndefined VNull) (js_or VUndefined VNull)
  | Some m => MessageBox (js_or (VStr (type m)) VNull) (js_or (text m) VNull)
  end.

(** The classify button, lines 155-166. *)
Record Button : Type :=
  { disabled : bool; spinner : bool; caption : string; buttonClasses : string }.

Definition button (s : State) : Button :=
  {| disabled := loading s || negb (truthy (image s));
     spinner := loading s;
     caption := if loading s then "Classifying..." else "Classify Waste";
     buttonClasses := if loading s then "bg-gray-400 cursor-not-allowed"
                      else "bg-green-600 hover:bg-green-700 text-white" |}.

(** The preview, lines 145-153: the [src] of the [<img>], when one is
    rendered. *)
Definition preview (s : State) : option string :=
  if truthy (image s) then
    Some match image s with VStr url => url | _ => "" end
  else None.

(** ** The page in use *)

(** The page state together with the invocations of [handleClassify] that are
    suspended at their [await], each with the payload it closed over. *)
Record Page : Type := { cells : State; awaiting : list value }.

Definition start : Page := {| cells := initial; awaiting := [] |}.

(** What can happen to the page: the file input changes, a read ends, the
    button is clicked, a request settles, the message box is closed, time
    passes. *)
Inductive event : Type :=
| Change (e : ChangeEvent)
| LoadEnd (i : nat) (o : read_outcome)
| Click
| Settle (i : nat) (net : error + Response)
| Close
| Tick (ms : Z).

(** One event.  A disabled button receives no click; the handler invoked by
    a click runs up to its [await]; a settled request resumes the invocation
    that waits for it, which then runs to its end. *)
Definition step (p : Page) (ev : event) : Page :=
  let s := cells p in
  match ev with
  | Change e =>
      {| cells := run (log (handleFileChange e)) s; awaiting := awaiting p |}
  | LoadEnd i o =>
      {| cells := loadend i o s; awaiting := awaiting p |}
  | Click =>
      if disabled (button s) then p
      else {| cells := run (log (handleClassify (image s) None)) s;
              awaiting := awaiting p ++ [image s] |}
  | Settle i net =>
      match nth_error (awaiting p) i with
      | Some img =>
          if settled (Some net) then
            {| cells := run (after_await (log (handleClassify img (Some net)))) s;
               awaiting := remove_nth i (awaiting p) |}
          else p
      | None => p
      end
  | Close =>
      {| cells := run (log dismiss) s; awaiting := awaiting p |}
  | Tick ms =>
      if 0 <=? ms then {| cells := elapse ms s; awaiting := awaiting p |} else p
  end.

Definition steps (evs : list event) (p : Page) : Page := fold_left step evs p.

(** Whether an event is the settling of a request. *)
Definition is_settle (ev : event) : bool :=
  match ev with Settle _ _ => true | _ => false end.

(** The states of the page a user can bring about. *)
Definition reachable (p : Page) : Prop := exists evs, p = steps evs start.

(** The form of a payload: [null], or a data URL as [readAsDataURL] builds
    them.  Which file and which bytes it comes from is [was_read]. *)
Definition stored_payload (v : value) : Prop :=
  v = VNull \/ exists f bytes, v = VStr (dataURL f bytes).

(** A notification as the page's own controls can raise it. *)
Definition raised (m : Message) : Prop :=
  truthy (text m) = true /\ (type m = "error" \/ type m = "success").

(** The form of a request: a POST of JSON to the endpoint, whose body holds
    a data URL.  Which file and which bytes it comes from is [was_read]. *)
Definition classify_request (r : string * RequestInit) : Prop :=
  exists f bytes,
    r = (endpoint,
         {| method := "POST"; headers := [("Content-Type", "application/json")];
            body := VObj [("imageData", VStr (dataURL f bytes))] |}).

(** What every event preserves. *)
Record tidy (p : Page) : Prop :=
  { tidy_image : stored_payload (image (cells p));
    tidy_result : result (cells p) = VNull \/ truthy (result (cells p)) = true;
    tidy_message : forall m, message (cells p) = Some m -> raised m;
    tidy_timer : message (cells p) <> None -> timers (cells p) <> [];
    tidy_due : forall t, In t (timers (cells p)) -> fst t <= now (cells p) + 5000;
    tidy_busy : loading (cells p) = negb (Nat.eqb (List.length (awaiting p)) 0);
    tidy_one : (List.length (awaiting p) <= 1)%nat;
    tidy_closure : forall img, In img (awaiting p) -> truthy img = true;
    tidy_requests : forall r, In r (requests (cells p)) -> classify_request r }.

(** A session: a photo is picked and read, the button is clicked, and the
    service answers with one prediction. *)
Definition bottle_bytes : list Byte.byte := ["J"%byte; "P"%byte; "G"%byte].

Definition answer_plastic : error + Response :=
  inr {| status := 200;
         json := Some (inr (VObj [("results",
                   VObj [("predictions", VArr [entry "plastic" 0.912])])])) |}.

Definition in_flight : list event :=
  [Change (pick photo); LoadEnd 0 (ReadDone bottle_bytes); Click].

Definition session : list event :=
  in_flight ++ [Tick 800; Settle 0 answer_plastic].

Definition manual : File :=
  {| file_name := "manual.pdf"; size := 10 * 1024 * 1024; mime := "application/pdf" |}.

(** ** Reading back what was written *)

(** The position of a character in a string, counted from [i]. *)
Fixpoint index_from (i : Z) (c : ascii) (s : string) : option Z :=
  match s with
  | "" => None
  | String c' rest => if Ascii.eqb c c' then Some i else index_from (i + 1) c rest
  end.

Definition unsextet (c : ascii) : option Z := index_from 0 c base64_alphabet.

Definition to_byte (n : Z) : Byte.byte :=
  match Byte.of_N (Z.to_N n) with
  | Some b => b
  | None => Byte.x00
  end.

(** Decoding of RFC 4648 base64, written with divisions where the encoder
    shifts: four characters give three bytes, and a last group padded with
    "=" gives one or two. *)
Fixpoint base64_decode (s : string) : option (list Byte.byte) :=
  match s with
  | "" => Some []
  | String c1 (String c2 (String c3 (String c4 rest))) =>
      match unsextet c1, unsextet c2 with
      | Some d1, Some d2 =>
          let b1 := to_byte (d1 * 4 + d2 / 16) in
          if Ascii.eqb c3 "=" then
            if Ascii.eqb c4 "=" && String.eqb rest "" then Some [b1] else None
          else
            match unsextet c3 with
            | Some d3 =>
                let b2 := to_byte (d2 mod 16 * 16 + d3 / 4) in
                if Ascii.eqb c4 "=" then
                  if String.eqb rest "" then Some [b1; b2] else None
                else
                  match unsextet c4 with
                  | Some d4 =>
                      match base64_decode rest with
                      | Some l => Some (b1 :: b2 :: to_byte (d3 mod 4 * 64 + d4) :: l)
                      | None => None
                      end
                  | None => None
                  end
            | None => None
            end
      | _, _ => None
      end
  | _ => None
  end.

Definition digit_value (c : ascii) : Z := Z.of_N (N_of_ascii c) - 48.

(** The digits of a numeral read from the left, the point skipped. *)
Fixpoint numeral_acc (acc : Z) (s : string) : Z :=
  match s with
  | "" => acc
  | String c rest =>
      if Ascii.eqb c "." then numeral_acc acc rest
      else numeral_acc (acc * 10 + digit_value c) rest
  end.

(** The number of hundredths a two-decimal numeral stands for: 8732 for
    "87.32", -50 for "-0.50". *)
Definition hundredths (s : string) : Z :=
  match s with
  | String c rest => if Ascii.eqb c "-" then - numeral_acc 0 rest else numeral_acc 0 s
  | "" => 0
  end.

(** [h] hundredths is the two-decimal figure nearest to the double [x], a
    tie going away from zero: with [x = (-1)^s * m * 2^e],
    [|h| - 1/2 <= 100 * m * 2^e < |h| + 1/2], and [h] has the sign of [x]. *)
Definition nearest_hundredth (x : float) (h : Z) : bool :=
  match Prim2SF x with
  | S754_zero _ => h =? 0
  | S754_finite s m e =>
      let a := Z.abs h in
      (if s then h <=? 0 else 0 <=? h) &&
      (if 0 <=? e then a =? 100 * Z.pos m * 2 ^ e
       else ((2 * a - 1) * 2 ^ (- e) <=? 200 * Z.pos m) &&
            (200 * Z.pos m <? (2 * a + 1) * 2 ^ (- e)))
  | S754_infinity _ | S754_nan => false
  end.

(** The value of a decimal numeral of the library, read from the left. *)
Fixpoint uint_value (acc : Z) (d : Decimal.uint) : Z :=
  match d with
  | Decimal.Nil => acc
  | Decimal.D0 d => uint_value (acc * 10) d
  | Decimal.D1 d => uint_value (acc * 10 + 1) d
  | Decimal.D2 d => uint_value (acc * 10 + 2) d
  | Decimal.D3 d => uint_value (acc * 10 + 3) d
  | Decimal.D4 d => uint_value (acc * 10 + 4) d
  | Decimal.D5 d => uint_value (acc * 10 + 5) d
  | Decimal.D6 d => uint_value (acc * 10 + 6) d
  | Decimal.D7 d => uint_value (acc * 10 + 7) d
  | Decimal.D8 d => uint_value (acc * 10 + 8) d
  | Decimal.D9 d => uint_value (acc * 10 + 9) d
  end.

(** ** What React paints for a child *)

(** The outcome of rendering a JSX child [{v}]: the text painted, a throw
    ("Objects are not valid as a React child"), or a number, whose printing
    is outside this development. *)
Inductive painted : Type :=
| Painted (s : string)
| Crash
| NumberPrinted.

Definition beside (a b : painted) : painted :=
  match a, b with
  | Crash, _ | _, Crash => Crash
  | NumberPrinted, _ | _, NumberPrinted => NumberPrinted
  | Painted x, Painted y => Painted (x ++ y)
  end.

(** A string is painted as it is; [null], [undefined] and the booleans paint
    nothing; the children of an array are painted side by side; a plain
    object makes React throw. *)
Fixpoint renderChild (v : value) : painted :=
  match v with
  | VStr s => Painted s
  | VUndefined | VNull | VBool _ => Painted ""
  | VNum _ => NumberPrinted
  | VArr items =>
      (fix children (l : list value) : painted :=
         match l with
         | [] => Painted ""
         | child :: rest => beside (renderChild child) (children rest)
         end) items
  | VObj _ => Crash
  end.

(** ** Entries that are not predictions *)

(** The numbers [toFixed] answers for in this development: all but the
    finite ones of magnitude [10^21] or more. *)
Definition printable (x : float) : bool :=
  match Prim2SF x with
  | S754_finite _ m e => negb (at_least_1e21 (Z.pos m) e)
  | _ => true
  end.

(** An entry that is neither [null] nor [undefined], whose confidence is
    missing, [null], a boolean, or a number that times 100 is printable. *)
Definition plain_entry (item : value) : bool :=
  match item with
  | VUndefined | VNull => false
  | _ =>
      match get_property item "confidence" with
      | inr VUndefined | inr VNull | inr (VBool _) => true
      | inr (VNum c) => printable (PrimFloat.mul c 100%float)
      | _ => false
      end
  end.

(** ** Where a payload comes from *)

(** In the history [evs], the file [f] was picked and passed the size
    check. *)
Definition accepted (evs : list event) (f : File) : Prop :=
  exists e, In (Change e) evs /\ first_file e = Some f /\ size f <= 10 * 1024 * 1024.

(** In the history [evs], the file [f] was picked, passed the size check, and
    at some point the read of [f] then in progress ended with [bytes]. *)
Definition was_read (evs : list event) (f : File) (bytes : list Byte.byte) : Prop :=
  accepted evs f /\
  exists before i after,
    evs = before ++ LoadEnd i (ReadDone bytes) :: after /\
    nth_error (reads (cells (steps before start))) i = Some (f, StoreReaderResult).

(** The request [handleClassify] sends for the data URL of [f] and [bytes]. *)
Definition request_for (f : File) (bytes : list Byte.byte) : string * RequestInit :=
  (endpoint,
   {| method := "POST"; headers := [("Content-Type", "application/json")];
      body := VObj [("imageData", VStr (dataURL f bytes))] |}).

(** What the history accounts for: every read in progress is of a file that
    was picked and passed the size check, and the payload and the body of
    every request sent are the data URL of a file that was read. *)
Record accounted (evs : list event) : Prop :=
  { accounted_reads :
      forall f cb, In (f, cb) (reads (cells (steps evs start))) -> accepted evs f;
    accounted_image :
      image (cells (steps evs start)) = VNull \/
      exists f bytes, was_read evs f bytes /\
                      image (cells (steps evs start)) = VStr (dataURL f bytes);
    accounted_requests :
      forall r, In r (requests (cells (steps evs start))) ->
      exists f bytes, was_read evs f bytes /\ r = request_for f bytes }.

(** * Properties *)

(** ** File selection *)

(** C10: a change event that carries no file (the picker was cancelled) makes
    [handleFileChange] return at once: it requests no effect, so the payload,
    the result, the notification, the busy flag and everything else in the
    page state are exactly as before. *)
Theorem handleFileChange_no_file (e : ChangeEvent) (s : State) :
  first_file e = None ->
  handleFileChange e = ([], Returned tt) /\
  run (log (handleFileChange e)) s = s.
Proof.
  intros Hnone. unfold handleFileChange. rewrite Hnone. split; reflexivity.
Qed.

Lemma handleFileChange_no_file_witness :
  handleFileChange cancelled = ([], Returned tt) /\
  run (log (handleFileChange cancelled)) shown = shown.
Proof. exact (handleFileChange_no_file cancelled shown eq_refl). Defined.

(** The same holds when the event has no file list at all. *)
Lemma first_file_absent : first_file {| files := None |} = None.
Proof. reflexivity. Qed.

(** C4: for a file larger than 10 MiB, [handleFileChange] raises exactly one
    notification, the error "File size exceeds the 10MB limit.", empties the
    file input, sets the payload to [null] whatever it was, starts no read,
    and does not write the result. *)
Theorem handleFileChange_too_large (e : ChangeEvent) (file : File) (s : State) :
  first_file e = Some file ->
  size file > 10 * 1024 * 1024 ->
  let l := log (handleFileChange e) in
  notifications l = [failure "File size exceeds the 10MB limit."] /\
  image (run l s) = VNull /\
  inputValue (run l s) = "" /\
  reads (run l s) = reads s /\
  results_stored l = [] /\
  result (run l s) = result s.
Proof.
  intros Hfile Hsize l. subst l. unfold handleFileChange. rewrite Hfile.
  assert (Hgt : (size file >? 10 * 1024 * 1024) = true) by (rewrite Z.gtb_ltb; apply Z.ltb_lt; lia).
  rewrite Hgt. cbn. repeat split; reflexivity.
Qed.

Lemma handleFileChange_too_large_witness :
  let l := log (handleFileChange (pick scan)) in
  notifications l = [failure "File size exceeds the 10MB limit."] /\
  image (run l shown) = VNull /\
  inputValue (run l shown) = "" /\
  reads (run l shown) = reads shown /\
  results_stored l = [] /\
  result (run l shown) = result shown.
Proof.
  apply (handleFileChange_too_large (pick scan) scan shown).
  - reflexivity.
  - reflexivity.
Defined.

(** A data URL is never the empty string. *)
Lemma dataURL_truthy (f : File) (bytes : list Byte.byte) :
  truthy (VStr (dataURL f bytes)) = true.
Proof. reflexivity. Qed.

Lemma dataURL_image (f : File) (bytes : list Byte.byte) :
  image_type f = true ->
  dataURL f bytes = ("data:" ++ mime f ++ ";base64," ++ base64 bytes)%string.
Proof.
  unfold image_type, dataURL. destruct (mime f) as [|c m]; cbn.
  - discriminate.
  - reflexivity.
Qed.

(** *** The data URL holds the file

    The payload is of use to the service only if the bytes can be recovered
    from it.  The decoder is written independently of the encoder, with
    divisions instead of shifts. *)

Lemma below_forall (P : Z -> bool) (n : nat) :
  forallb P (map Z.of_nat (seq 0 n)) = true ->
  forall k, 0 <= k < Z.of_nat n -> P k = true.
Proof.
  intros H k Hk. rewrite forallb_forall in H. apply H.
  apply in_map_iff. exists (Z.to_nat k). split; [lia|]. apply in_seq. lia.
Qed.

Lemma unsextet_sextet (k : Z) :
  0 <= k ->
  unsextet (sextet k) = Some (k mod 64) /\ Ascii.eqb (sextet k) "=" = false.
Proof.
  intros Hk. unfold sextet. change 63 with (Z.ones 6). rewrite Z.land_ones by lia.
  change (2 ^ 6) with 64.
  assert (Hr : 0 <= k mod 64 < Z.of_nat 64) by (apply Z.mod_pos_bound; lia).
  pose proof (below_forall
    (fun j => match String.get (Z.to_nat j) base64_alphabet with
              | Some c => match unsextet c with
                          | Some d => (d =? j) && negb (Ascii.eqb c "=")
                          | None => false
                          end
              | None => false
              end) 64 eq_refl (k mod 64) Hr) as H.
  cbv beta in H.
  destruct (String.get (Z.to_nat (k mod 64)) base64_alphabet) as [c|]; [|discriminate H].
  destruct (unsextet c) as [d|]; [|discriminate H].
  apply andb_true_iff in H as [Hd Hc]. apply Z.eqb_eq in Hd. subst d.
  apply negb_true_iff in Hc. split; [reflexivity | exact Hc].
Qed.

Lemma lor_low (x c : Z) (n : Z) :
  0 <= n -> 0 <= c < 2 ^ n -> Z.lor (x * 2 ^ n) c = x * 2 ^ n + c.
Proof.
  intros Hn Hc.
  assert (Hland : Z.land (x * 2 ^ n) c = 0).
  { rewrite <- (Z.mod_small c (2 ^ n)) by lia.
    rewrite <- Z.land_ones by lia. rewrite Z.land_assoc.
    rewrite (Z.land_comm (x * 2 ^ n)), <- Z.land_assoc, Z.land_ones by lia.
    rewrite Z.mod_mul by lia. apply Z.land_0_r. }
  rewrite <- Z.lxor_lor by exact Hland. symmetry. apply Z.add_nocarry_lxor. exact Hland.
Qed.

Lemma octet_range (b : Byte.byte) : 0 <= octet b < 256.
Proof. unfold octet. pose proof (Byte.to_N_bounded b). lia. Qed.

Lemma to_byte_octet (b : Byte.byte) : to_byte (octet b) = b.
Proof. unfold to_byte, octet. rewrite N2Z.id, Byte.of_to_N. reflexivity. Qed.

Lemma group_value (a b c : Z) :
  0 <= b < 256 -> 0 <= c < 256 ->
  Z.lor (Z.lor (Z.shiftl a 16) (Z.shiftl b 8)) c = a * 65536 + b * 256 + c.
Proof.
  intros Hb Hc. rewrite !Z.shiftl_mul_pow2 by lia.
  rewrite (lor_low a (b * 2 ^ 8) 16) by (change (2 ^ 8) with 256; change (2 ^ 16) with 65536; lia).
  replace (a * 2 ^ 16 + b * 2 ^ 8) with ((a * 256 + b) * 2 ^ 8)
    by (change (2 ^ 8) with 256; change (2 ^ 16) with 65536; lia).
  rewrite lor_low by (change (2 ^ 8) with 256; lia).
  change (2 ^ 8) with 256. lia.
Qed.

Lemma decode_group (a b c : Byte.byte) (rest : string) :
  base64_decode
    (let n := Z.lor (Z.lor (Z.shiftl (octet a) 16) (Z.shiftl (octet b) 8)) (octet c) in
     String (sextet (Z.shiftr n 18)) (String (sextet (Z.shiftr n 12))
       (String (sextet (Z.shiftr n 6)) (String (sextet n) rest))))
  = match base64_decode rest with
    | Some l => Some (a :: b :: c :: l)
    | None => None
    end.
Proof.
  pose proof (octet_range a) as Ha. pose proof (octet_range b) as Hb.
  pose proof (octet_range c) as Hc.
  cbv zeta. rewrite group_value by assumption.
  set (n := octet a * 65536 + octet b * 256 + octet c).
  assert (Hn : 0 <= n) by (subst n; lia).
  rewrite !Z.shiftr_div_pow2 by lia.
  change (2 ^ 18) with 262144. change (2 ^ 12) with 4096. change (2 ^ 6) with 64.
  cbn [base64_decode].
  destruct (unsextet_sextet (n / 262144)) as [-> _]; [apply Z.div_pos; lia|].
  destruct (unsextet_sextet (n / 4096)) as [-> _]; [apply Z.div_pos; lia|].
  destruct (unsextet_sextet (n / 64)) as [-> ->]; [apply Z.div_pos; lia|].
  destruct (unsextet_sextet n) as [-> ->]; [lia|].
  replace ((n / 262144) mod 64 * 4 + (n / 4096) mod 64 / 16) with (octet a)
    by (subst n; clear - Ha Hb Hc; Z.div_mod_to_equations; lia).
  replace ((n / 4096) mod 64 mod 16 * 16 + (n / 64) mod 64 / 4) with (octet b)
    by (subst n; clear - Ha Hb Hc; Z.div_mod_to_equations; lia).
  replace ((n / 64) mod 64 mod 4 * 64 + n mod 64) with (octet c)
    by (subst n; clear - Ha Hb Hc; Z.div_mod_to_equations; lia).
  rewrite !to_byte_octet. reflexivity.
Qed.

Lemma decode_pair (a b : Byte.byte) :
  base64_decode (base64 [a; b]) = Some [a; b].
Proof.
  pose proof (octet_range a) as Ha. pose proof (octet_range b) as Hb.
  cbn [base64].
  rewrite <- (Z.lor_0_r (Z.lor _ _)). rewrite group_value by lia.
  set (n := octet a * 65536 + octet b * 256 + 0).
  assert (Hn : 0 <= n) by (subst n; lia).
  rewrite !Z.shiftr_div_pow2 by lia.
  change (2 ^ 18) with 262144. change (2 ^ 12) with 4096. change (2 ^ 6) with 64.
  cbn [base64_decode].
  destruct (unsextet_sextet (n / 262144)) as [-> _]; [apply Z.div_pos; lia|].
  destruct (unsextet_sextet (n / 4096)) as [-> _]; [apply Z.div_pos; lia|].
  destruct (unsextet_sextet (n / 64)) as [-> ->]; [apply Z.div_pos; lia|].
  replace ((n / 262144) mod 64 * 4 + (n / 4096) mod 64 / 16) with (octet a)
    by (subst n; clear - Ha Hb; Z.div_mod_to_equations; lia).
  replace ((n / 4096) mod 64 mod 16 * 16 + (n / 64) mod 64 / 4) with (octet b)
    by (subst n; clear - Ha Hb; Z.div_mod_to_equations; lia).
  rewrite !to_byte_octet. reflexivity.
Qed.

Lemma decode_single (a : Byte.byte) :
  base64_decode (base64 [a]) = Some [a].
Proof.
  pose proof (octet_range a) as Ha.
  cbn [base64]. rewrite Z.shiftl_mul_pow2 by lia. change (2 ^ 16) with 65536.
  set (n := octet a * 65536).
  assert (Hn : 0 <= n) by (subst n; lia).
  rewrite !Z.shiftr_div_pow2 by lia.
  change (2 ^ 18) with 262144. change (2 ^ 12) with 4096.
  cbn [base64_decode].
  destruct (unsextet_sextet (n / 262144)) as [-> _]; [apply Z.div_pos; lia|].
  destruct (unsextet_sextet (n / 4096)) as [-> _]; [apply Z.div_pos; lia|].
  replace ((n / 262144) mod 64 * 4 + (n / 4096) mod 64 / 16) with (octet a)
    by (subst n; clear - Ha; Z.div_mod_to_equations; lia).
  rewrite to_byte_octet. reflexivity.
Qed.

(** Decoding undoes encoding: the encoded text holds every byte of the file. *)
Lemma base64_roundtrip (bytes : list Byte.byte) :
  base64_decode (base64 bytes) = Some bytes.
Proof.
  assert (H : forall n (l : list Byte.byte), (List.length l <= n)%nat ->
                base64_decode (base64 l) = Some l).
  { intros n. induction n as [|n IH]; intros l Hl.
    - destruct l; [reflexivity | cbn in Hl; lia].
    - destruct l as [|a [|b [|c rest]]].
      + reflexivity.
      + apply decode_single.
      + apply decode_pair.
      + change (base64 (a :: b :: c :: rest)) with
          (let n := Z.lor (Z.lor (Z.shiftl (octet a) 16) (Z.shiftl (octet b) 8)) (octet c) in
           String (sextet (Z.shiftr n 18)) (String (sextet (Z.shiftr n 12))
             (String (sextet (Z.shiftr n 6)) (String (sextet n) (base64 rest))))).
        rewrite decode_group. rewrite IH; [reflexivity|]. cbn in Hl. lia. }
  apply (H (List.length bytes)). lia.
Qed.

(** C5: for a file of at most 10 MiB with an image type, [handleFileChange]
    clears the result it held and starts one read.  When that read completes
    with the file's bytes, the payload is the data URL "data:<type>;base64,"
    followed by the base64 encoding of the bytes, from which decoding gives
    the bytes back; it is not absent, and the result is still cleared.  (When
    the read fails instead, [loadend] stores [null].) *)
Theorem handleFileChange_accepts (e : ChangeEvent) (file : File) (s : State)
    (bytes : list Byte.byte) :
  first_file e = Some file ->
  size file <= 10 * 1024 * 1024 ->
  image_type file = true ->
  let s1 := run (log (handleFileChange e)) s in
  let s2 := loadend (List.length (reads s)) (ReadDone bytes) s1 in
  result s1 = VNull /\
  reads s1 = reads s ++ [(file, StoreReaderResult)] /\
  notifications (log (handleFileChange e)) = [] /\
  (exists encoded,
     image s2 = VStr ("data:" ++ mime file ++ ";base64," ++ encoded)%string /\
     encoded = base64 bytes /\
     base64_decode encoded = Some bytes) /\
  truthy (image s2) = true /\
  result s2 = VNull /\
  reads s2 = reads s /\
  image (loadend (List.length (reads s)) ReadFailed s1) = VNull.
Proof.
  intros Hfile Hsize Himg s1 s2. subst s1 s2.
  unfold handleFileChange. rewrite Hfile.
  assert (Hle : (size file >? 10 * 1024 * 1024) = false)
    by (rewrite Z.gtb_ltb; apply Z.ltb_ge; lia).
  rewrite Hle. cbn [log fst bind emit run fold_left apply_effect app
                    result reads notifications flat_map].
  unfold loadend. cbn [reads].
  rewrite nth_error_app2 by lia. rewrite Nat.sub_diag.
  cbn [nth_error run fold_left apply_effect image result reads reader_result].
  rewrite (dataURL_image file bytes Himg).
  do 3 (split; [reflexivity|]).
  split; [exists (base64 bytes); repeat split; apply base64_roundtrip|].
  repeat split.
  clear. induction (reads s) as [|r rs IH]; cbn; [reflexivity | now rewrite IH].
Qed.

Lemma handleFileChange_accepts_witness :
  let s1 := run (log (handleFileChange (pick photo))) shown in
  let s2 := loadend (List.length (reads shown))
              (ReadDone ["M"%byte; "a"%byte; "n"%byte]) s1 in
  result s1 = VNull /\
  reads s1 = reads shown ++ [(photo, StoreReaderResult)] /\
  notifications (log (handleFileChange (pick photo))) = [] /\
  (exists encoded,
     image s2 = VStr ("data:" ++ mime photo ++ ";base64," ++ encoded)%string /\
     encoded = base64 ["M"%byte; "a"%byte; "n"%byte] /\
     base64_decode encoded = Some ["M"%byte; "a"%byte; "n"%byte]) /\
  truthy (image s2) = true /\
  result s2 = VNull /\
  reads s2 = reads shown /\
  image (loadend (List.length (reads shown)) ReadFailed s1) = VNull.
Proof.
  apply (handleFileChange_accepts (pick photo) photo shown).
  - reflexivity.
  - discriminate.
  - reflexivity.
Defined.

(** The result the page held is gone after the selection, and the payload
    reads "data:image/jpeg;base64,TWFu". *)
Example handleFileChange_accepts_figures :
  result shown <> VNull /\
  result (run (log (handleFileChange (pick photo))) shown) = VNull /\
  image (loadend 0 (ReadDone ["M"%byte; "a"%byte; "n"%byte])
           (run (log (handleFileChange (pick photo))) shown))
  = VStr "data:image/jpeg;base64,TWFu".
Proof. repeat split. discriminate. Qed.

(** The encoder on the test vectors of RFC 4648. *)
Example base64_vectors :
  base64 ["f"%byte] = "Zg==" /\
  base64 ["f"%byte; "o"%byte] = "Zm8=" /\
  base64 ["f"%byte; "o"%byte; "o"%byte] = "Zm9v" /\
  base64 ["f"%byte; "o"%byte; "o"%byte; "b"%byte; "a"%byte; "r"%byte] = "Zm9vYmFy".
Proof. repeat split; reflexivity. Qed.

(** A read that fails leaves the payload [null]: [loadend] is dispatched
    after a failure too. *)
Example failed_read_clears_payload :
  image (loadend 0 ReadFailed (run (log (handleFileChange (pick photo))) initial)) = VNull.
Proof. reflexivity. Qed.

(** ** Notifications and their timers *)

Lemma fire_clears (s : State) (t : Z * timer_callback) : message (fire s t) = None.
Proof. destruct t as [d []]. reflexivity. Qed.

Lemma fold_fire_message (due : list (Z * timer_callback)) (s : State) :
  message (fold_left fire due s) =
  match due with [] => message s | _ :: _ => None end.
Proof.
  revert s. induction due as [|t due IH]; intros s; [reflexivity|].
  cbn [fold_left]. rewrite IH. destruct due; [apply fire_clears | reflexivity].
Qed.

Lemma filter_existsb {A} (p : A -> bool) (l : list A) :
  existsb p l = match filter p l with [] => false | _ :: _ => true end.
Proof.
  induction l as [|a l IH]; [reflexivity|]. cbn. destruct (p a); [reflexivity | exact IH].
Qed.

(** After [ms] milliseconds the notification is gone exactly when some
    pending timer was due by then. *)
Lemma elapse_message (ms : Z) (s : State) :
  message (elapse ms s) =
  if existsb (due_by (now s + ms)) (timers s) then None else message s.
Proof.
  unfold elapse. rewrite fold_fire_message, filter_existsb.
  destruct (filter (due_by (now s + ms)) (timers s)); reflexivity.
Qed.

Lemma fold_fire_frame (due : list (Z * timer_callback)) (s : State) :
  let s' := fold_left fire due s in
  image s' = image s /\ result s' = result s /\ loading s' = loading s /\
  inputValue s' = inputValue s /\ now s' = now s /\ timers s' = timers s /\
  reads s' = reads s /\ requests s' = requests s /\ console s' = console s.
Proof.
  revert s. induction due as [|[d []] due IH]; intros s; cbn [fold_left].
  - repeat split.
  - specialize (IH (fire s (d, ClearMessage))). cbn in IH |- *. exact IH.
Qed.

(** Time passing touches only the clock, the timers and the notification. *)
Lemma elapse_frame (ms : Z) (s : State) :
  image (elapse ms s) = image s /\ result (elapse ms s) = result s /\
  loading (elapse ms s) = loading s /\ requests (elapse ms s) = requests s.
Proof.
  unfold elapse.
  match goal with |- context [fold_left fire ?d ?s0] =>
    destruct (fold_fire_frame d s0) as (Hi & Hr & Hl & _ & _ & _ & _ & Hq & _)
  end.
  cbn in Hi, Hr, Hl, Hq. rewrite Hi, Hr, Hl, Hq. repeat split.
Qed.

(** C1, as the code has it: [showMessage] replaces the notification and adds
    a timer due 5 seconds later, and leaves every timer that was pending in
    place.  Whatever timer is due first, an earlier one included, clears the
    notification then displayed; the new one is gone after 5 seconds at the
    latest. *)
Theorem showMessage_keeps_timers (ty : string) (txt : value) (s : State) :
  let s' := run (log (showMessage ty txt)) s in
  message s' = Some {| type := ty; text := txt |} /\
  timers s' = timers s ++ [(now s + 5000, ClearMessage)] /\
  now s' = now s /\
  (forall ms,
     message (elapse ms s') =
     if existsb (due_by (now s + ms)) (timers s) || (5000 <=? ms) then None
     else Some {| type := ty; text := txt |}).
Proof.
  cbv zeta. do 3 (split; [reflexivity|]). intros ms.
  rewrite elapse_message.
  change (timers (run (log (showMessage ty txt)) s))
    with (timers s ++ [(now s + 5000, ClearMessage)]).
  change (now (run (log (showMessage ty txt)) s)) with (now s).
  change (message (run (log (showMessage ty txt)) s))
    with (Some {| type := ty; text := txt |}).
  rewrite existsb_app. cbn [existsb]. unfold due_by at 2. cbn [fst].
  rewrite orb_false_r.
  replace (now s + 5000 <=? now s + ms) with (5000 <=? ms); [reflexivity|].
  destruct (Z.leb_spec 5000 ms), (Z.leb_spec (now s + 5000) (now s + ms));
    try reflexivity; lia.
Qed.

(** C1 as stated fails: a notification is shown at time 0 and a second one at
    4000 ms.  The first timer, due at 5000, is still in the list after the
    second call, and when it fires the second notification disappears, one
    second after it was shown and four seconds before its own timer. *)
Lemma showMessage_stale_timer :
  let s1 := run (log (showMessage "info" (VStr "first"))) initial in
  let s2 := elapse 4000 s1 in
  let s3 := run (log (showMessage "success" (VStr "second"))) s2 in
  let s4 := elapse 1000 s3 in
  (visible s2 = Some (info "first") /\ timers s2 = [(5000, ClearMessage)]) /\
  (visible s3 = Some (success "second") /\
   timers s3 = [(5000, ClearMessage); (9000, ClearMessage)]) /\
  (now s4 = 5000 /\ visible s4 = None /\ timers s4 = [(9000, ClearMessage)]).
Proof. cbv zeta. repeat split; reflexivity. Qed.

(** Closing the box does not cancel the timer either. *)
Example dismiss_keeps_timer :
  timers (run (log dismiss) (run (log (showMessage "info" (VStr "first"))) initial))
  = [(5000, ClearMessage)].
Proof. reflexivity. Qed.

(** ** Classification *)

(** C6: invoked with an absent (falsy) payload, [handleClassify] sends no
    request, writes neither the result nor the busy flag, and raises exactly
    one notification: severity [info], text "Please upload an image first.". *)
Theorem handleClassify_without_image (image : value)
    (net : option (error + Response)) (s : State) :
  truthy image = false ->
  let l := log (handleClassify image net) in
  network_calls l = [] /\
  notifications l = [info "Please upload an image first."] /\
  results_stored l = [] /\
  request_outcome l = None /\
  requests (run l s) = requests s /\
  result (run l s) = result s /\
  loading (run l s) = loading s.
Proof.
  intros Himg. unfold handleClassify. rewrite Himg. cbn. repeat split.
Qed.

Lemma handleClassify_without_image_witness :
  let l := log (handleClassify VNull None) in
  network_calls l = [] /\
  notifications l = [info "Please upload an image first."] /\
  results_stored l = [] /\
  request_outcome l = None /\
  requests (run l initial) = requests initial /\
  result (run l initial) = result initial /\
  loading (run l initial) = loading initial.
Proof. exact (handleClassify_without_image VNull None initial eq_refl). Defined.

(** One step of symbolic execution of a handler. *)
Ltac exec :=
  cbn [bind emit await lift catch finally ret app log outcome fst snd negb
       showMessage fetch].

Ltac branch_done :=
  cbv zeta; unfold js_or;
  repeat match goal with
         | |- _ /\ _ => split
         | |- _ \/ _ => first [left; reflexivity | right; reflexivity]
         | |- _ = _ => reflexivity
         end.

Section WithPayload.

(** The handler is invoked with a payload, in any page state. *)
Variable image0 : value.
Variable s : State.
Hypothesis present : truthy image0 = true.

Let request : effect :=
  Fetch endpoint {| method := "POST";
                    headers := [("Content-Type", "application/json")];
                    body := VObj [("imageData", image0)] |}.

(** What runs at the click, before the first [await]. *)
Lemma handleClassify_prologue (net : option (error + Response)) :
  before_await (log (handleClassify image0 net))
  = [SetLoading true; SetResult VNull; SetMessage None; request].
Proof.
  unfold handleClassify. rewrite present.
  destruct net as [[e | [st [[e' | data] |]]] |]; exec; try reflexivity;
    cbn [json]; exec; try reflexivity.
  destruct (ok {| status := st; json := Some (inr data) |}); exec.
  - destruct (get_property data "results") as [e | results]; exec; [reflexivity|].
    destruct (get_optional results "predictions"); reflexivity.
  - destruct (get_property data "error") as [e | err]; exec; [reflexivity|].
    destruct (get_property data "details"); reflexivity.
Qed.

(** C8: when the request fails in transport (the [fetch] promise rejects),
    [handleClassify] raises exactly one notification, the error "Failed to
    connect to the backend server.", ends with the busy flag cleared after
    that error (failed), and the result is [null]; the same holds when time
    passes between the click and the failure. *)
Theorem handleClassify_transport_failure (e : error) :
  let l := log (handleClassify image0 (Some (inl e))) in
  notifications l = [failure "Failed to connect to the backend server."] /\
  request_outcome l = Some Failed /\
  results_stored l = [VNull] /\
  (forall ms,
     let s' := run (after_await l) (elapse ms (run (before_await l) s)) in
     loading s' = false /\ result s' = VNull /\
     message s' = Some (failure "Failed to connect to the backend server.")) /\
  loading (run l s) = false /\
  result (run l s) = VNull /\
  message (run l s) = Some (failure "Failed to connect to the backend server.").
Proof.
  cbv zeta. rewrite handleClassify_prologue.
  unfold handleClassify. rewrite present. exec.
  do 3 (split; [reflexivity|]). split; [|repeat split].
  intros ms. cbn [after_await].
  destruct (elapse_frame ms
              (run [SetLoading true; SetResult VNull; SetMessage None; request] s))
    as (_ & Hr & _ & _).
  cbn in Hr |- *. rewrite Hr. repeat split.
Qed.

(** C3, as the code has it: for a response with a non-success status whose
    body is a JSON value other than [null], [handleClassify] raises exactly
    one notification, of severity error; its text is the body's [error]
    property when that is truthy and "An unknown classification error
    occurred." otherwise (missing, [null], [false], [0], the empty string).
    The invocation ends failed and the result is [null]. *)
Theorem handleClassify_service_error (res : Response) (data err : value) :
  ok res = false ->
  json res = Some (inr data) ->
  get_property data "error" = inr err ->
  let l := log (handleClassify image0 (Some (inr res))) in
  notifications l =
    [{| type := "error";
        text := if truthy err then err
                else VStr "An unknown classification error occurred." |}] /\
  request_outcome l = Some Failed /\
  results_stored l = [VNull] /\
  loading (run l s) = false /\
  result (run l s) = VNull.
Proof.
  intros Hok Hjson Herr. unfold handleClassify. rewrite present. exec.
  rewrite Hjson. exec. rewrite Hok. exec. rewrite Herr. exec.
  assert (Hdet : exists details, get_property data "details" = inr details).
  { destruct data; try discriminate; eexists; reflexivity. }
  destruct Hdet as [details Hdet]. rewrite Hdet. exec.
  unfold js_or. cbv zeta. repeat split.
Qed.

(** A non-success response whose body cannot be read as JSON, or is the
    JSON [null], ends in the [catch] block. *)
Lemma handleClassify_unreadable_body (res : Response) (e : error) :
  json res = Some (inl e) \/ (json res = Some (inr VNull) /\ ok res = false) ->
  notifications (log (handleClassify image0 (Some (inr res)))) =
    [failure "Failed to connect to the backend server."].
Proof.
  intros [Hjson | [Hjson Hok]]; unfold handleClassify; rewrite present; exec;
    rewrite Hjson; exec; [reflexivity|]. rewrite Hok. reflexivity.
Qed.

(** C7, as the code has it: for a success-status response whose body is a
    JSON value other than [null], [handleClassify] stores the empty list
    when [results.predictions] is missing or falsy, and stores the value
    itself when it is truthy, a list or not; a stored value that is not a
    list is rendered as "No data returned.".  In every case the outcome is a
    success: one success notification and no error. *)
Theorem handleClassify_success (res : Response) (data results predictions : value) :
  ok res = true ->
  json res = Some (inr data) ->
  get_property data "results" = inr results ->
  get_optional results "predictions" = inr predictions ->
  let l := log (handleClassify image0 (Some (inr res))) in
  results_stored l = [VNull; if truthy predictions then predictions else VArr []] /\
  result (run l s) = (if truthy predictions then predictions else VArr []) /\
  truthy (result (run l s)) = true /\
  (isArray predictions = false ->
   resultPanel (run l s) =
     Some (Value (if truthy predictions then Text "No data returned." else Lines []))) /\
  notifications l = [success "Image classified successfully!"] /\
  request_outcome l = Some Succeeded /\
  loading (run l s) = false.
Proof.
  intros Hok Hjson Hres Hpred. unfold handleClassify. rewrite present. exec.
  rewrite Hjson. exec. rewrite Hok. exec. rewrite Hres. exec. rewrite Hpred. exec.
  unfold js_or, resultPanel. cbv zeta.
  cbn [run fold_left apply_effect result loading results_stored notifications
       flat_map app].
  repeat split.
  - destruct (truthy predictions) eqn:Ht; [exact Ht | reflexivity].
  - intros Harr. destruct (truthy predictions) eqn:Ht.
    + rewrite Ht. unfold formatResults. rewrite Ht, Harr. reflexivity.
    + reflexivity.
Qed.

(** C2: invoked with a payload, on every path that ends (success, an error
    reported by the service, an unreadable body, a transport failure)
    [handleClassify] returns having called [setLoading(false)] exactly once,
    as its last effect: the busy flag is clear, the invocation is succeeded
    or failed, and the button is enabled again for the same payload. *)
Theorem handleClassify_clears_busy_once (net : option (error + Response)) :
  settled net = true ->
  let l := log (handleClassify image0 net) in
  busy_cleared l = 1%nat /\
  outcome (handleClassify image0 net) = Returned tt /\
  last l (SetLoading true) = SetLoading false /\
  (request_outcome l = Some Succeeded \/ request_outcome l = Some Failed) /\
  loading (run l s) = false /\
  (image s = image0 -> submitDisabled (run l s) = false).
Proof.
  intros Hset. unfold handleClassify. rewrite present.
  assert (Hbtn : forall l', image (run l' s) = image s -> loading (run l' s) = false ->
                 image s = image0 -> submitDisabled (run l' s) = false).
  { intros l' Hi Hl H0. unfold submitDisabled. rewrite Hl, Hi, H0, present. reflexivity. }
  destruct net as [[e | [st [[e' | data] |]]] |]; try discriminate Hset; exec.
  - branch_done. intros; apply Hbtn; auto.
  - cbn [json]. exec. branch_done. intros; apply Hbtn; auto.
  - cbn [json]. exec.
    destruct (ok {| status := st; json := Some (inr data) |}); exec.
    + destruct data as [| | b | n | str | items | props]; exec;
        try (branch_done; intros; apply Hbtn; auto).
      cbn [get_property]. exec.
      destruct (own_property "results" props); exec;
        branch_done; intros; apply Hbtn; auto.
    + destruct data; exec; branch_done; intros; apply Hbtn; auto.
Qed.

(** While the request, or the reading of its body, never settles, the busy
    flag is never cleared. *)
Lemma handleClassify_hung (net : option (error + Response)) :
  settled net = false ->
  let l := log (handleClassify image0 net) in
  busy_cleared l = 0%nat /\ request_outcome l = Some Submitting /\
  outcome (handleClassify image0 net) = Suspended /\ loading (run l s) = true.
Proof.
  intros Hset. unfold handleClassify. rewrite present.
  destruct net as [[e | [st [[e' | data] |]]] |]; try discriminate Hset; exec;
    cbn [json]; exec; repeat split.
Qed.

End WithPayload.

Lemma handleClassify_transport_failure_witness :
  let l := log (handleClassify payload (Some (inl (TypeError "Failed to fetch")))) in
  notifications l = [failure "Failed to connect to the backend server."] /\
  request_outcome l = Some Failed /\
  results_stored l = [VNull] /\
  (forall ms,
     let s' := run (after_await l) (elapse ms (run (before_await l) initial)) in
     loading s' = false /\ result s' = VNull /\
     message s' = Some (failure "Failed to connect to the backend server.")) /\
  loading (run l initial) = false /\
  result (run l initial) = VNull /\
  message (run l initial) = Some (failure "Failed to connect to the backend server.").
Proof.
  exact (handleClassify_transport_failure payload initial eq_refl
           (TypeError "Failed to fetch")).
Defined.

Lemma handleClassify_service_error_witness :
  let res := {| status := 500;
                json := Some (inr (VObj [("error", VStr "Model not loaded")])) |} in
  let l := log (handleClassify payload (Some (inr res))) in
  notifications l =
    [{| type := "error";
        text := if truthy (VStr "Model not loaded") then VStr "Model not loaded"
                else VStr "An unknown classification error occurred." |}] /\
  request_outcome l = Some Failed /\
  results_stored l = [VNull] /\
  loading (run l initial) = false /\
  result (run l initial) = VNull.
Proof.
  exact (handleClassify_service_error payload initial eq_refl
           {| status := 500;
              json := Some (inr (VObj [("error", VStr "Model not loaded")])) |}
           (VObj [("error", VStr "Model not loaded")]) (VStr "Model not loaded")
           eq_refl eq_refl eq_refl).
Defined.

(** C3 as stated fails.  A 502 answer that carries an HTML page, not JSON,
    has no [error] property, yet the text shown is not the generic
    classification message but the connectivity one; and an [error] property
    that is the empty string is replaced by the generic message. *)
Lemma handleClassify_service_error_text :
  (notifications
     (log (handleClassify payload
        (Some (inr {| status := 502;
                      json := Some (inl (SyntaxError "Unexpected token '<'")) |}))))
   = [failure "Failed to connect to the backend server."] /\
   failure "Failed to connect to the backend server."
   <> failure "An unknown classification error occurred.") /\
  (notifications
     (log (handleClassify payload
        (Some (inr {| status := 500;
                      json := Some (inr (VObj [("error", VStr "")])) |}))))
   = [failure "An unknown classification error occurred."] /\
   own_property "error" [("error", VStr "")] = VStr "" /\
   failure "An unknown classification error occurred." <> failure "").
Proof. repeat split; try reflexivity; discriminate. Qed.

Lemma handleClassify_success_witness :
  let res := {| status := 200; json := Some (inr (VObj [("results", VObj [])])) |} in
  let l := log (handleClassify payload (Some (inr res))) in
  results_stored l = [VNull; if truthy VUndefined then VUndefined else VArr []] /\
  result (run l initial) = (if truthy VUndefined then VUndefined else VArr []) /\
  truthy (result (run l initial)) = true /\
  (isArray VUndefined = false ->
   resultPanel (run l initial) =
     Some (Value (if truthy VUndefined then Text "No data returned." else Lines []))) /\
  notifications l = [success "Image classified successfully!"] /\
  request_outcome l = Some Succeeded /\
  loading (run l initial) = false.
Proof.
  exact (handleClassify_success payload initial eq_refl
           {| status := 200; json := Some (inr (VObj [("results", VObj [])])) |}
           (VObj [("results", VObj [])]) (VObj []) VUndefined
           eq_refl eq_refl eq_refl eq_refl).
Defined.

(** C7 as stated fails: a success-status response whose [results.predictions]
    is a string, or an object, is not normalized to the empty list; the value
    is stored as it came. *)
Lemma handleClassify_keeps_malformed_predictions :
  let answer p := Some (inr {| status := 200;
    json := Some (inr (VObj [("results", VObj [("predictions", p)])])) |}) in
  (result (run (log (handleClassify payload (answer (VStr "none")))) initial)
   = VStr "none" /\ VStr "none" <> VArr []) /\
  (result (run (log (handleClassify payload
                       (answer (VObj [("class", VStr "plastic")])))) initial)
   = VObj [("class", VStr "plastic")] /\
   VObj [("class", VStr "plastic")] <> VArr []).
Proof. cbv zeta. repeat split; try reflexivity; discriminate. Qed.

Lemma handleClassify_clears_busy_once_witness :
  let net := Some (inr {| status := 200; json := Some (inr (VObj [("results", VObj [])])) |}) in
  let l := log (handleClassify payload net) in
  busy_cleared l = 1%nat /\
  outcome (handleClassify payload net) = Returned tt /\
  last l (SetLoading true) = SetLoading false /\
  (request_outcome l = Some Succeeded \/ request_outcome l = Some Failed) /\
  loading (run l initial) = false /\
  (image initial = payload -> submitDisabled (run l initial) = false).
Proof.
  exact (handleClassify_clears_busy_once payload initial eq_refl
           (Some (inr {| status := 200;
                         json := Some (inr (VObj [("results", VObj [])])) |}))
           eq_refl).
Defined.

(** The scenario of the design: a 2 MB JPEG is picked and read, the service
    answers with one prediction, and the panel shows it. *)
Example scenario_plastic :
  let s1 := loadend 0 (ReadDone ["J"%byte; "P"%byte; "G"%byte])
              (run (log (handleFileChange (pick photo))) initial) in
  let answer := Some (inr {| status := 200; json := Some (inr
      (VObj [("results", VObj [("predictions", VArr [entry "plastic" 0.912])])])) |}) in
  let s2 := run (log (handleClassify (image s1) answer)) s1 in
  image s1 = VStr "data:image/jpeg;base64,SlBH" /\ result s1 = VNull /\
  resultPanel s2 = Some (Value (Lines
    [ {| key := 0; label := VStr "plastic"; confidence := "91.20%" |} ])) /\
  visible s2 = Some (success "Image classified successfully!").
Proof. vm_compute. repeat split. Qed.

(** ** Rendering *)

Lemma is_digit_digit (d : Z) : 0 <= d < 10 -> is_digit (digit d) = true.
Proof.
  intros H.
  assert (Hd : d = 0 \/ d = 1 \/ d = 2 \/ d = 3 \/ d = 4 \/ d = 5 \/ d = 6 \/
               d = 7 \/ d = 8 \/ d = 9) by lia.
  repeat (destruct Hd as [-> | Hd]; [reflexivity|]). subst d. reflexivity.
Qed.

Lemma all_digits_uint (d : Decimal.uint) : all_digits (NilEmpty.string_of_uint d) = true.
Proof. induction d; cbn [NilEmpty.string_of_uint all_digits]; auto. Qed.

Lemma decimal_digits (n : Z) : all_digits (decimal n) = true /\ decimal n <> "".
Proof.
  unfold decimal. destruct (N.to_uint (Z.to_N n)) eqn:E;
    (split; [ first [ reflexivity | rewrite <- E; cbn [NilZero.string_of_uint];
                      rewrite E; apply all_digits_uint ]
            | cbn; discriminate ]).
Qed.

Lemma whole_point_two_app (w : string) (d1 d2 : ascii) (seen : bool) :
  all_digits w = true ->
  (seen = true \/ w <> "") ->
  is_digit d1 = true -> is_digit d2 = true ->
  whole_point_two seen (w ++ String "." (String d1 (String d2 ""))) = true.
Proof.
  intros Hw Hne H1 H2. revert seen Hne.
  induction w as [|c w IH]; intros seen Hne.
  - destruct Hne as [-> | Hne]; [|congruence]. cbn. rewrite H1, H2. reflexivity.
  - cbn in Hw |- *. apply andb_true_iff in Hw as [Hc Hw]. rewrite Hc.
    apply IH; auto.
Qed.

Lemma digit_not_minus (c : ascii) : is_digit c = true -> Ascii.eqb c "-" = false.
Proof.
  destruct c as [[] [] [] [] [] [] [] []]; cbn; intros H;
    first [reflexivity | discriminate H].
Qed.

Lemma fixed_notation_two_decimals (n : Z) (sign : bool) :
  0 <= n ->
  two_decimals ((if sign then "-" else "") ++ fixed_notation 2 n) = true.
Proof.
  intros Hn. unfold fixed_notation.
  change (Z.of_nat 2) with 2. cbn [low_digits]. cbn [String.append].
  destruct (decimal_digits (n / 10 ^ 2)) as [Hall Hne].
  assert (Hbody : whole_point_two false
            (decimal (n / 10 ^ 2) ++
             String "." (String (digit (n / 10 mod 10)) (String (digit (n mod 10)) "")))
          = true).
  { apply whole_point_two_app; auto; apply is_digit_digit; apply Z.mod_pos_bound; lia. }
  destruct sign; cbn [String.append].
  - unfold two_decimals. cbn [Ascii.eqb Bool.eqb]. exact Hbody.
  - unfold two_decimals. destruct (decimal (n / 10 ^ 2)) as [|c w] eqn:E; [congruence|].
    cbn [String.append]. cbn [all_digits] in Hall.
    apply andb_true_iff in Hall as [Hc _]. rewrite (digit_not_minus c Hc).
    exact Hbody.
Qed.

Lemma nearest_scaled_nonneg (fd : nat) (m e : Z) : 0 < m -> 0 <= nearest_scaled fd m e.
Proof.
  intros Hm. unfold nearest_scaled.
  assert (0 < 10 ^ Z.of_nat fd) by (apply Z.pow_pos_nonneg; lia).
  destruct (0 <=? e) eqn:He.
  - apply Z.leb_le in He. assert (0 < 2 ^ e) by (apply Z.pow_pos_nonneg; lia). nia.
  - apply Z.leb_gt in He.
    assert (0 < 2 ^ (- e)) by (apply Z.pow_pos_nonneg; lia).
    assert (0 < 2 ^ (- e + 1)) by (apply Z.pow_pos_nonneg; lia).
    apply Z.div_pos; nia.
Qed.

(** In its fixed-notation range, [toFixed(2)] prints exactly two decimals. *)
Lemma toFixed_two_decimals (x : float) :
  fixed_range x = true ->
  exists digits, toFixed 2 x = Some digits /\ two_decimals digits = true.
Proof.
  unfold fixed_range, toFixed. destruct (Prim2SF x) as [sg | sg | | sg m e]; intros H;
    try discriminate H.
  - eexists; split; reflexivity.
  - apply negb_true_iff in H. rewrite H. eexists; split; [reflexivity|].
    apply fixed_notation_two_decimals. apply nearest_scaled_nonneg. lia.
Qed.

(** *** Doubles

    Multiplying a confidence between 0 and 1 by 100 stays far below the
    [10^21] where [toFixed] changes notation.  The bound is read off the
    rounding function of the IEEE specification the primitive floats obey. *)

Lemma digits2_pos_bounds (p : positive) :
  2 ^ (Z.pos (digits2_pos p) - 1) <= Z.pos p < 2 ^ Z.pos (digits2_pos p).
Proof.
  induction p as [p IH | p IH |]; cbn [digits2_pos].
  - rewrite Pos2Z.inj_succ, (Pos2Z.inj_xI p).
    replace (Z.succ (Z.pos (digits2_pos p)) - 1) with (Z.succ (Z.pos (digits2_pos p) - 1)) by lia.
    rewrite !Z.pow_succ_r by lia.
    set (a := 2 ^ (Z.pos (digits2_pos p) - 1)) in *. set (b := 2 ^ Z.pos (digits2_pos p)) in *. clearbody a b. lia.
  - rewrite Pos2Z.inj_succ, (Pos2Z.inj_xO p).
    replace (Z.succ (Z.pos (digits2_pos p)) - 1) with (Z.succ (Z.pos (digits2_pos p) - 1)) by lia.
    rewrite !Z.pow_succ_r by lia.
    set (a := 2 ^ (Z.pos (digits2_pos p) - 1)) in *. set (b := 2 ^ Z.pos (digits2_pos p)) in *. clearbody a b. lia.
  - cbn. lia.
Qed.

Lemma Zdigits2_bounds (m : Z) :
  0 < m -> 0 < Zdigits2 m /\ 2 ^ (Zdigits2 m - 1) <= m < 2 ^ Zdigits2 m.
Proof.
  destruct m as [|p|p]; try lia. intros _. cbn [Zdigits2].
  split; [lia | apply digits2_pos_bounds].
Qed.

Lemma Zdigits2_le (m : Z) (k : Z) : 0 <= m -> 0 <= k -> m < 2 ^ k -> Zdigits2 m <= k.
Proof.
  intros Hm Hk Hlt. destruct (Z.eq_dec m 0) as [-> | Hne]; [cbn; lia|].
  destruct (Zdigits2_bounds m) as [Hd [Hlo _]]; [lia|].
  destruct (Z_le_gt_dec (Zdigits2 m) k) as [|Hgt]; [assumption|].
  assert (2 ^ k <= 2 ^ (Zdigits2 m - 1)) by (apply Z.pow_le_mono_r; lia). lia.
Qed.

Lemma shr_1_m (mrs : shr_record) :
  0 <= shr_m mrs -> shr_m (shr_1 mrs) = shr_m mrs / 2.
Proof.
  destruct mrs as [m r s]. cbn [shr_m]. intros Hm. rewrite <- Z.div2_div.
  destruct m as [|[p|p|]|p]; try reflexivity; lia.
Qed.

Lemma iter_shr_1_m (p : positive) (mrs : shr_record) :
  0 <= shr_m mrs -> shr_m (iter_pos shr_1 p mrs) = shr_m mrs / 2 ^ Z.pos p.
Proof.
  revert mrs. induction p as [p IH | p IH |]; intros mrs Hm; cbn [iter_pos].
  - assert (H1 : 0 <= shr_m (shr_1 mrs)) by (rewrite shr_1_m by lia; apply Z.div_pos; lia).
    assert (H2 : 0 <= shr_m (iter_pos shr_1 p (shr_1 mrs))).
    { rewrite IH by lia. apply Z.div_pos; [lia | apply Z.pow_pos_nonneg; lia]. }
    rewrite IH by lia. rewrite IH by lia. rewrite shr_1_m by lia.
    assert (0 < 2 ^ Z.pos p) by (apply Z.pow_pos_nonneg; lia).
    rewrite !Z.div_div by lia.
    f_equal. rewrite (Pos2Z.inj_xI p).
    replace (2 * Z.pos p + 1) with (1 + Z.pos p + Z.pos p) by lia.
    rewrite !Z.pow_add_r by lia. lia.
  - assert (H2 : 0 <= shr_m (iter_pos shr_1 p mrs)).
    { rewrite IH by lia. apply Z.div_pos; [lia | apply Z.pow_pos_nonneg; lia]. }
    rewrite IH by lia. rewrite IH by lia.
    assert (0 < 2 ^ Z.pos p) by (apply Z.pow_pos_nonneg; lia).
    rewrite !Z.div_div by lia.
    f_equal. rewrite (Pos2Z.inj_xO p).
    replace (2 * Z.pos p) with (Z.pos p + Z.pos p) by lia.
    rewrite !Z.pow_add_r by lia. lia.
  - rewrite shr_1_m by lia. reflexivity.
Qed.

Lemma shr_fexp_bounds (m e : Z) (l : location) :
  0 <= m ->
  let r := shr_fexp prec emax m e l in
  0 <= shr_m (fst r) <= m /\ shr_m (fst r) < 2 ^ 53 /\
  snd r <= Z.max e (Z.max (Zdigits2 m + e - 53) (-1074)).
Proof.
  intros Hm. cbv zeta. unfold shr_fexp, shr, fexp, SpecFloat.emin, prec, emax.
  change (3 - 1024 - 53) with (-1074).
  assert (Hrec : shr_m (shr_record_of_loc m l) = m) by (destruct l as [|[]]; reflexivity).
  set (d := Zdigits2 m).
  assert (Hd : m < 2 ^ d /\ 0 <= d).
  { destruct (Z.eq_dec m 0) as [-> | Hne]; [subst d; cbn; lia|].
    destruct (Zdigits2_bounds m) as [? [? ?]]; [lia|]. subst d. lia. }
  destruct (Z.max (d + e - 53) (-1074) - e) as [|p|p] eqn:En; cbn [fst snd].
  - rewrite Hrec. repeat split; try lia.
    assert (2 ^ d <= 2 ^ 53) by (apply Z.pow_le_mono_r; lia). lia.
  - rewrite iter_shr_1_m by lia. rewrite Hrec.
    assert (Hp : 0 < 2 ^ Z.pos p) by (apply Z.pow_pos_nonneg; lia).
    repeat split.
    + apply Z.div_pos; lia.
    + apply Z.div_le_upper_bound; [lia | nia].
    + apply Z.div_lt_upper_bound; [lia|].
      rewrite <- Z.pow_add_r by lia.
      assert (2 ^ d <= 2 ^ (Z.pos p + 53)) by (apply Z.pow_le_mono_r; lia). lia.
    + lia.
  - rewrite Hrec. repeat split; try lia.
    assert (2 ^ d <= 2 ^ 53) by (apply Z.pow_le_mono_r; lia). lia.
Qed.

Lemma round_nearest_even_bounds (m : Z) (l : location) :
  m <= round_nearest_even m l <= m + 1.
Proof. destruct l as [|[]]; cbn; try lia. destruct (Z.even m); lia. Qed.

Lemma binary_round_aux_small (sx : bool) (mx ex : Z) :
  0 < mx -> ex <= 0 -> Zdigits2 mx + ex <= 60 ->
  match binary_round_aux prec emax sx mx ex loc_Exact with
  | S754_zero _ => True
  | S754_finite _ m e => Z.pos m <= 2 ^ 53 /\ e <= 8
  | _ => False
  end.
Proof.
  intros Hm He Hd. unfold binary_round_aux.
  pose proof (shr_fexp_bounds mx ex loc_Exact ltac:(lia)) as H1. cbv zeta in H1.
  destruct (shr_fexp prec emax mx ex loc_Exact) as [mrs1 e1]. cbn [fst snd] in H1.
  destruct H1 as ([H1a H1b] & H1c & H1e).
  pose proof (round_nearest_even_bounds (shr_m mrs1) (loc_of_shr_record mrs1)) as Hr.
  set (m2 := round_nearest_even (shr_m mrs1) (loc_of_shr_record mrs1)) in *.
  pose proof (shr_fexp_bounds m2 e1 loc_Exact ltac:(lia)) as H2. cbv zeta in H2.
  assert (Hd2 : Zdigits2 m2 <= 54).
  { apply Zdigits2_le; lia. }
  destruct (shr_fexp prec emax m2 e1 loc_Exact) as [mrs2 e2]. cbn [fst snd] in H2.
  destruct H2 as ([H2a H2b] & H2c & H2e).
  destruct (shr_m mrs2) as [|m|m]; [exact I | | lia].
  change (emax - prec) with 971.
  destruct (Z.leb_spec e2 971); [|lia]. split; lia.
Qed.

Lemma small_double_in_range (m : positive) (e : Z) :
  Z.pos m <= 2 ^ 53 -> e <= 8 ->
  (if 0 <=? e then 10 ^ 21 <=? Z.pos m * 2 ^ e else 10 ^ 21 * 2 ^ (- e) <=? Z.pos m) = false.
Proof.
  intros Hm He. destruct (Z.leb_spec 0 e).
  - apply Z.leb_gt. assert (2 ^ e <= 2 ^ 8) by (apply Z.pow_le_mono_r; lia).
    assert (0 < 2 ^ e) by (apply Z.pow_pos_nonneg; lia).
    change (2 ^ 8) with 256 in *. change (2 ^ 53) with 9007199254740992 in *.
    change (10 ^ 21) with 1000000000000000000000. nia.
  - apply Z.leb_gt. assert (0 < 2 ^ (- e)) by (apply Z.pow_pos_nonneg; lia).
    change (2 ^ 53) with 9007199254740992 in *.
    change (10 ^ 21) with 1000000000000000000000. nia.
Qed.

Lemma unit_interval_product (c : float) :
  (0 <=? c)%float = true -> (c <=? 1)%float = true ->
  match Prim2SF (c * 100)%float with
  | S754_zero _ => True
  | S754_finite _ m e => Z.pos m <= 2 ^ 53 /\ e <= 8
  | _ => False
  end.
Proof.
  intros H0 H1. rewrite leb_spec in H0, H1. rewrite mul_spec.
  pose proof (Prim2SF_valid c) as Hv.
  change (Prim2SF 100) with (S754_finite false 7036874417766400 (-46)).
  change (Prim2SF 0) with (S754_zero false) in H0.
  change (Prim2SF 1) with (S754_finite false 4503599627370496 (-52)) in H1.
  destruct (Prim2SF c) as [s | s | | s m e]; cbn [SFleb SFcompare SF64mul SFmul] in H0, H1 |- *; try discriminate; auto.
  - destruct s; discriminate.
  - destruct s; [discriminate|].
    cbn [valid_binary SpecFloat.valid_binary bounded canonical_mantissa] in Hv.
    unfold bounded, canonical_mantissa, fexp, SpecFloat.emin, prec, emax in Hv.
    apply andb_true_iff in Hv as [Hc _]. apply Z.eqb_eq in Hc.
    assert (He : e <= -52).
    { unfold SFleb, SFcompare in H1.
      destruct (Z.compare_spec e (-52)); first [lia | discriminate H1]. }
    unfold SF64mul, SFmul. cbn [xorb].
    apply binary_round_aux_small; try lia.
    destruct (digits2_pos_bounds m) as [_ Hm].
    assert (Hd : Zdigits2 (Z.pos (m * 7036874417766400)) <= Z.pos (digits2_pos m) + 53).
    { apply Zdigits2_le; try lia. rewrite Z.pow_add_r by lia.
      rewrite Pos2Z.inj_mul. change (2 ^ 53) with 9007199254740992.
      set (b := 2 ^ Z.pos (digits2_pos m)) in *. clearbody b. nia. }
    lia.
Qed.

(** Every confidence between 0 and 1, times 100, is printed in fixed
    notation. *)
Lemma probability_fixed_range (c : float) :
  probability c = true -> fixed_range (PrimFloat.mul c 100%float) = true.
Proof.
  unfold probability. intros H. apply andb_true_iff in H as [H0 H1].
  pose proof (unit_interval_product c H0 H1) as Hp. unfold fixed_range.
  destruct (Prim2SF (c * 100)%float) as [s | s | | s m e]; try contradiction; auto.
  destruct Hp as [Hm He]. apply negb_true_iff. unfold at_least_1e21.
  apply small_double_in_range; assumption.
Qed.

(** [nearest_scaled] rounds to nearest, a tie going up: with [n] the result,
    [n - 1/2 <= m * 2^e * 10^fd < n + 1/2]. *)
Lemma nearest_scaled_rounds (fd : nat) (m e : Z) :
  e < 0 ->
  let n := nearest_scaled fd m e in
  let q := 2 ^ (- e) in
  2 * n * q - q <= 2 * (m * 10 ^ Z.of_nat fd) < 2 * n * q + q.
Proof.
  intros He. cbv zeta. unfold nearest_scaled.
  destruct (Z.leb_spec 0 e); [lia|].
  replace (- e + 1) with (Z.succ (- e)) by lia. rewrite Z.pow_succ_r by lia.
  set (q := 2 ^ (- e)). assert (Hq : 0 < q) by (apply Z.pow_pos_nonneg; lia).
  set (p := m * 10 ^ Z.of_nat fd).
  pose proof (Z.div_mod (2 * p + q) (2 * q) ltac:(lia)) as Hdm.
  pose proof (Z.mod_pos_bound (2 * p + q) (2 * q) ltac:(lia)) as Hmod.
  clearbody q p. nia.
Qed.

(** *** The figure printed is the confidence

    Reading the printed numeral back gives the number of hundredths nearest
    to the double [confidence * 100]. *)

Lemma numeral_uint (d : Decimal.uint) (acc : Z) (rest : string) :
  numeral_acc acc (NilEmpty.string_of_uint d ++ rest) = numeral_acc (uint_value acc d) rest.
Proof.
  revert acc. induction d; intros acc; cbn [NilEmpty.string_of_uint String.append uint_value];
    [reflexivity | ..]; cbn [numeral_acc]; simpl (Ascii.eqb _ _); cbv iota;
    simpl (digit_value _); rewrite ?Z.add_0_r; apply IHd.
Qed.

Lemma uint_value_pos (d : Decimal.uint) (p : positive) :
  uint_value (Z.pos p) d = Z.pos (Pos.of_uint_acc d p).
Proof.
  revert p. induction d; intros p; cbn [uint_value Pos.of_uint_acc]; [reflexivity | ..];
    rewrite <- IHd; f_equal; lia.
Qed.

Lemma uint_value_0 (d : Decimal.uint) : uint_value 0 d = Z.of_N (Pos.of_uint d).
Proof.
  induction d; cbn [uint_value Pos.of_uint]; [reflexivity | exact IHd | ..];
    cbn [Z.mul Z.add]; rewrite uint_value_pos; reflexivity.
Qed.

Lemma numeral_decimal (n : Z) (rest : string) :
  0 <= n -> numeral_acc 0 (decimal n ++ rest) = numeral_acc n rest.
Proof.
  intros Hn. unfold decimal.
  assert (H : forall d, numeral_acc 0 (NilZero.string_of_uint d ++ rest)
                        = numeral_acc (uint_value 0 d) rest).
  { intros d. destruct d; try apply numeral_uint. reflexivity. }
  rewrite H, uint_value_0.
  change (Pos.of_uint (N.to_uint (Z.to_N n))) with (N.of_uint (N.to_uint (Z.to_N n))).
  rewrite DecimalN.Unsigned.of_to. rewrite Z2N.id by lia. reflexivity.
Qed.

Lemma digit_reads (d : Z) :
  0 <= d < 10 -> digit_value (digit d) = d /\ Ascii.eqb (digit d) "." = false.
Proof.
  intros H.
  assert (Hd : d = 0 \/ d = 1 \/ d = 2 \/ d = 3 \/ d = 4 \/ d = 5 \/ d = 6 \/
               d = 7 \/ d = 8 \/ d = 9) by lia.
  repeat (destruct Hd as [-> | Hd]; [split; reflexivity|]). subst d. split; reflexivity.
Qed.

Lemma numeral_fixed_notation (n : Z) :
  0 <= n -> numeral_acc 0 (fixed_notation 2 n) = n.
Proof.
  intros Hn. unfold fixed_notation. change (Z.of_nat 2) with 2.
  change (10 ^ 2) with 100.
  rewrite numeral_decimal by (apply Z.div_pos; lia).
  cbn [low_digits String.append numeral_acc]. simpl (Ascii.eqb "." "."). cbv iota.
  destruct (digit_reads (n / 10 mod 10)) as [V1 E1]; [apply Z.mod_pos_bound; lia|].
  destruct (digit_reads (n mod 10)) as [V2 E2]; [apply Z.mod_pos_bound; lia|].
  rewrite E1, E2, V1, V2. clear. Z.div_mod_to_equations. lia.
Qed.

Lemma hundredths_fixed_notation (n : Z) (sign : bool) :
  0 <= n ->
  hundredths ((if sign then "-" else "") ++ fixed_notation 2 n)
  = if sign then - n else n.
Proof.
  intros Hn. pose proof (numeral_fixed_notation n Hn) as Hv.
  destruct sign; cbn [String.append].
  - unfold hundredths. simpl (Ascii.eqb "-" "-"). cbv iota. now rewrite Hv.
  - unfold hundredths. destruct (fixed_notation 2 n) as [|c w] eqn:E.
    + cbn in Hv. lia.
    + assert (Hc : Ascii.eqb c "-" = false).
      { pose proof (fixed_notation_two_decimals n false Hn) as Ht.
        cbn [String.append] in Ht. rewrite E in Ht. unfold two_decimals in Ht.
        destruct (Ascii.eqb c "-") eqn:Hm; [|reflexivity].
        apply Ascii.eqb_eq in Hm. subst c.
        unfold fixed_notation in E. change (Z.of_nat 2) with 2 in E.
        destruct (decimal_digits (n / 10 ^ 2)) as [Hall Hne].
        destruct (decimal (n / 10 ^ 2)) as [|c' w'] eqn:E'; [congruence|].
        cbn [String.append] in E. injection E as -> _.
        cbn [all_digits] in Hall. apply andb_true_iff in Hall as [Hd _].
        discriminate Hd. }
      rewrite Hc. exact Hv.
Qed.

(** In its fixed-notation range [toFixed(2)] prints a two-decimal numeral
    whose value is the number of hundredths nearest to the double. *)
Lemma toFixed_nearest (x : float) :
  fixed_range x = true ->
  exists digits,
    toFixed 2 x = Some digits /\
    two_decimals digits = true /\
    nearest_hundredth x (hundredths digits) = true.
Proof.
  unfold fixed_range, toFixed, nearest_hundredth.
  destruct (Prim2SF x) as [sg | sg | | sg m e]; intros H; try discriminate H.
  - eexists. repeat split; reflexivity.
  - apply negb_true_iff in H. rewrite H. eexists. split; [reflexivity|].
    pose proof (nearest_scaled_nonneg 2 (Z.pos m) e ltac:(lia)) as Hn.
    split; [apply fixed_notation_two_decimals; exact Hn|].
    rewrite hundredths_fixed_notation by exact Hn.
    set (n := nearest_scaled 2 (Z.pos m) e) in *.
    assert (Habs : Z.abs (if sg then - n else n) = n) by (destruct sg; lia).
    cbv zeta. rewrite Habs.
    assert (Hsign : (if sg then (if sg then - n else n) <=? 0
                     else 0 <=? (if sg then - n else n)) = true).
    { destruct sg; [apply Z.leb_le | apply Z.leb_le]; lia. }
    rewrite Hsign. cbn [andb].
    destruct (Z.leb_spec 0 e) as [He | He].
    + apply Z.eqb_eq. subst n. unfold nearest_scaled.
      destruct (Z.leb_spec 0 e); [|lia]. change (Z.of_nat 2) with 2.
      change (10 ^ 2) with 100. lia.
    + pose proof (nearest_scaled_rounds 2 (Z.pos m) e He) as Hr. cbv zeta in Hr.
      fold n in Hr. change (Z.of_nat 2) with 2 in Hr. change (10 ^ 2) with 100 in Hr.
      set (q := 2 ^ (- e)) in *. clearbody q n.
      apply andb_true_iff. split; [apply Z.leb_le | apply Z.ltb_lt]; lia.
Qed.

(** What [format_item] makes of a scored entry: the line keyed by the
    entry's index, labelled with its [class], whose confidence text is a
    two-decimal numeral followed by the percent sign. *)
Lemma format_item_scored (item : value) (index : nat) :
  scored item = true ->
  exists line digits,
    format_item item index = Value line /\
    key line = index /\
    get_property item "class" = inr (label line) /\
    confidence line = (digits ++ "%")%string /\
    two_decimals digits = true.
Proof.
  unfold scored, format_item. intros H.
  destruct item as [| | b | n | str | items | props]; try discriminate H;
    cbn [get_property] in H |- *; try discriminate H.
  destruct (own_property "confidence" props) as [| | b | c | str | items | ps];
    try discriminate H.
  cbn [times100 ToNumber option_map].
  destruct (toFixed_two_decimals _ H) as (digits & Hfix & Htwo). rewrite Hfix.
  eexists; exists digits. repeat split. exact Htwo.
Qed.

Lemma map_from_scored (items : list value) (start : nat) :
  forallb scored items = true ->
  exists lines,
    map_from format_item start items = Value lines /\
    List.length lines = List.length items /\
    forall i item, nth_error items i = Some item ->
      exists line digits,
        nth_error lines i = Some line /\
        key line = (start + i)%nat /\
        get_property item "class" = inr (label line) /\
        confidence line = (digits ++ "%")%string /\
        two_decimals digits = true.
Proof.
  revert start. induction items as [|item items IH]; intros start Hall.
  - exists []. repeat split. intros [|i] item H; discriminate H.
  - cbn [forallb] in Hall. apply andb_true_iff in Hall as [Hitem Hall].
    destruct (format_item_scored item start Hitem) as (line & digits & Hf & Hk & Hc & Hd & Ht).
    destruct (IH (S start) Hall) as (lines & Hm & Hlen & Hnth).
    exists (line :: lines). cbn [map_from]. rewrite Hf, Hm. repeat split.
    + cbn. now rewrite Hlen.
    + intros [|i] item' Hi; cbn [nth_error] in Hi |- *.
      * injection Hi as <-. exists line, digits. rewrite Nat.add_0_r. auto.
      * destruct (Hnth i item' Hi) as (line' & digits' & H1 & H2 & H3 & H4 & H5).
        exists line', digits'. repeat split; auto. rewrite H2. lia.
Qed.

(** A scored entry gives the line keyed by its index and labelled with its
    [class]; the confidence text is a two-decimal numeral, the one nearest to
    the entry's confidence times 100, followed by the percent sign. *)
Lemma format_item_scored_value (item : value) (index : nat) :
  scored item = true ->
  exists line c digits,
    format_item item index = Value line /\
    key line = index /\
    get_property item "class" = inr (label line) /\
    get_property item "confidence" = inr (VNum c) /\
    confidence line = (digits ++ "%")%string /\
    two_decimals digits = true /\
    nearest_hundredth (PrimFloat.mul c 100%float) (hundredths digits) = true.
Proof.
  unfold scored, format_item. intros H.
  destruct item as [| | b | n | str | items | props]; try discriminate H;
    cbn [get_property] in H |- *; try discriminate H.
  destruct (own_property "confidence" props) as [| | b | c | str | items | ps];
    try discriminate H.
  cbn [times100 ToNumber option_map].
  destruct (toFixed_nearest _ H) as (digits & Hfix & Htwo & Hnear). rewrite Hfix.
  eexists; exists c, digits. repeat split; assumption.
Qed.

Lemma map_from_scored_value (items : list value) (start : nat) :
  forallb scored items = true ->
  exists lines,
    map_from format_item start items = Value lines /\
    List.length lines = List.length items /\
    forall i item, nth_error items i = Some item ->
      exists line c digits,
        nth_error lines i = Some line /\
        key line = (start + i)%nat /\
        get_property item "class" = inr (label line) /\
        get_property item "confidence" = inr (VNum c) /\
        confidence line = (digits ++ "%")%string /\
        two_decimals digits = true /\
        nearest_hundredth (PrimFloat.mul c 100%float) (hundredths digits) = true.
Proof.
  revert start. induction items as [|item items IH]; intros start Hall.
  - exists []. repeat split. intros [|i] item H; discriminate H.
  - cbn [forallb] in Hall. apply andb_true_iff in Hall as [Hitem Hall].
    destruct (format_item_scored_value item start Hitem)
      as (line & c & digits & Hf & Hk & Hc & Hn & Hd & Ht & Hv).
    destruct (IH (S start) Hall) as (lines & Hm & Hlen & Hnth).
    exists (line :: lines). cbn [map_from]. rewrite Hf, Hm. repeat split.
    + cbn. now rewrite Hlen.
    + intros [|i] item' Hi; cbn [nth_error] in Hi |- *.
      * injection Hi as <-. exists line, c, digits. rewrite Nat.add_0_r. auto 10.
      * destruct (Hnth i item' Hi) as (line' & c' & digits' & H1 & H2 & H3 & H4 & H5 & H6 & H7).
        exists line', c', digits'. repeat split; auto. rewrite H2. lia.
Qed.

(** C9, as the code has it: [formatResults] returns the text "No data
    returned." for every value that is not an array.  For an array whose
    entries each carry a numeric [confidence] that, times 100, is finite and
    below 10^21, it returns exactly one line per entry, in the entries' order
    and keyed by position, each pairing the entry's [class] with a percentage
    of exactly two decimal digits, whose value is the hundredth nearest to
    the entry's confidence times 100.  Every confidence between 0 and 1 is
    such a number; 0.8732 is shown as 87.32% and 0.5 as 50.00%. *)
Theorem formatResults_lines (res : value) :
  (isArray res = false -> formatResults res = Value (Text "No data returned.")) /\
  (forall items, res = VArr items -> forallb scored items = true ->
   exists lines,
     formatResults res = Value (Lines lines) /\
     List.length lines = List.length items /\
     forall i item, nth_error items i = Some item ->
       exists line c digits,
         nth_error lines i = Some line /\
         key line = i /\
         get_property item "class" = inr (label line) /\
         get_property item "confidence" = inr (VNum c) /\
         confidence line = (digits ++ "%")%string /\
         two_decimals digits = true /\
         nearest_hundredth (PrimFloat.mul c 100%float) (hundredths digits) = true) /\
  (forall item c, get_property item "confidence" = inr (VNum c) ->
   probability c = true -> scored item = true) /\
  (forall cls1 cls2,
     formatResults (VArr [entry cls1 0.8732; entry cls2 0.5])
     = Value (Lines [ {| key := 0; label := VStr cls1; confidence := "87.32%" |};
                      {| key := 1; label := VStr cls2; confidence := "50.00%" |} ])).
Proof.
  split; [|split; [|split]].
  - intros Harr. unfold formatResults. rewrite Harr, orb_true_r. reflexivity.
  - intros items -> Hall.
    destruct (map_from_scored_value items 0 Hall) as (lines & Hm & Hlen & Hnth).
    exists lines. unfold formatResults. cbn [truthy isArray negb orb]. rewrite Hm.
    repeat split; auto.
  - intros item c Hconf Hc. unfold scored. rewrite Hconf.
    apply probability_fixed_range, Hc.
  - intros cls1 cls2. vm_compute. reflexivity.
Qed.

Lemma formatResults_lines_witness :
  (isArray (VStr "none") = false ->
   formatResults (VStr "none") = Value (Text "No data returned.")) /\
  (exists lines,
     formatResults (VArr [entry "plastic" 0.8732; entry "paper" 0.5])
       = Value (Lines lines) /\
     List.length lines = 2%nat /\
     exists line c digits,
       nth_error lines 1 = Some line /\
       key line = 1%nat /\
       get_property (entry "paper" 0.5) "class" = inr (label line) /\
       get_property (entry "paper" 0.5) "confidence" = inr (VNum c) /\
       confidence line = (digits ++ "%")%string /\
       two_decimals digits = true /\
       nearest_hundredth (PrimFloat.mul c 100%float) (hundredths digits) = true).
Proof.
  split.
  - exact (proj1 (formatResults_lines (VStr "none"))).
  - destruct (proj1 (proj2 (formatResults_lines
                              (VArr [entry "plastic" 0.8732; entry "paper" 0.5])))
                _ eq_refl eq_refl) as (lines & Hf & Hlen & Hnth).
    exists lines. split; [exact Hf|]. split; [exact Hlen|].
    exact (Hnth 1%nat (entry "paper" 0.5) eq_refl).
Defined.

(** The figures of the design: 0.8732 is shown as 87.32%, 0.5 as 50.00%, and
    the scenario's 0.912 as 91.20%. *)
Example formatResults_figures :
  formatResults (VArr [entry "plastic" 0.8732; entry "paper" 0.5; entry "glass" 0.912])
  = Value (Lines [ {| key := 0; label := VStr "plastic"; confidence := "87.32%" |};
                   {| key := 1; label := VStr "paper"; confidence := "50.00%" |};
                   {| key := 2; label := VStr "glass"; confidence := "91.20%" |} ]).
Proof. vm_compute. reflexivity. Qed.

(** C9 as stated fails on arrays whose entries are not predictions.  An entry
    without a [confidence] is rendered, with "NaN%" for a percentage: neither
    the placeholder nor a two-decimal figure.  A [null] entry makes
    [formatResults] throw: nothing is rendered at all. *)
Lemma formatResults_unscored_entry :
  (truthy (VArr [VObj [("class", VStr "glass")]]) = true /\
   formatResults (VArr [VObj [("class", VStr "glass")]])
   = Value (Lines [ {| key := 0; label := VStr "glass"; confidence := "NaN%" |} ]) /\
   two_decimals "NaN" = false) /\
  formatResults (VArr [VNull])
  = Throws (TypeError "Cannot read properties of null (reading 'class')").
Proof. vm_compute. repeat split. Qed.

(** * Beyond the stated claims *)

(** ** What one invocation of [handleClassify] does *)

Lemma js_or_truthy (a b : value) : truthy b = true -> truthy (js_or a b) = true.
Proof. intros Hb. unfold js_or. destruct (truthy a) eqn:Ha; assumption. Qed.

Ltac solve_raised :=
  lazymatch goal with
  | |- raised _ =>
      split; cbn [text type];
      [ first [ reflexivity | apply js_or_truthy; reflexivity ]
      | first [ left; reflexivity | right; reflexivity ] ]
  end.

(** The part of [handleClassify] that runs after the [await], for a request
    that settles: it leaves the payload, the file input, the reads and the
    requests alone, keeps the result or stores a truthy one, clears the busy
    flag, and ends with one notification on display and its timer set. *)
Lemma after_await_effects (img : value) (net : error + Response) (s : State) :
  truthy img = true ->
  settled (Some net) = true ->
  let s' := run (after_await (log (handleClassify img (Some net)))) s in
  image s' = image s /\
  (result s' = result s \/ truthy (result s') = true) /\
  loading s' = false /\
  (exists m, raised m /\ message s' = Some m) /\
  timers s' = timers s ++ [(now s + 5000, ClearMessage)] /\
  now s' = now s /\
  requests s' = requests s /\
  reads s' = reads s /\
  inputValue s' = inputValue s.
Proof.
  intros Himg Hset. unfold handleClassify. rewrite Himg.
  assert (Hfin : forall m r s',
            image s' = image s -> result s' = r -> loading s' = false ->
            message s' = Some m ->
            timers s' = timers s ++ [(now s + 5000, ClearMessage)] ->
            now s' = now s -> requests s' = requests s -> reads s' = reads s ->
            inputValue s' = inputValue s ->
            raised m ->
            (r = result s \/ truthy r = true) ->
            image s' = image s /\
            (result s' = result s \/ truthy (result s') = true) /\
            loading s' = false /\
            (exists m, raised m /\ message s' = Some m) /\
            timers s' = timers s ++ [(now s + 5000, ClearMessage)] /\
            now s' = now s /\ requests s' = requests s /\ reads s' = reads s /\
            inputValue s' = inputValue s).
  { intros m r s' Hi Hres Hl Hmsg Ht Hn Hq Hrd Hin Hm Hr.
    rewrite Hres. repeat split; auto. exists m. auto. }
  assert (Hor : forall p, truthy (js_or p (VArr [])) = true)
    by (intros p; apply js_or_truthy; reflexivity).
  destruct net as [e | [st [[e' | data] |]]]; try discriminate Hset; exec.
  - cbv zeta. cbn [after_await].
    eapply Hfin; [reflexivity .. | solve_raised | left; reflexivity].
  - cbn [json]. exec. cbv zeta. cbn [after_await].
    eapply Hfin; [reflexivity .. | solve_raised | left; reflexivity].
  - cbn [json]. exec.
    destruct (ok {| status := st; json := Some (inr data) |}); exec.
    + destruct data as [| | b | n | str | items | props]; exec; cbv zeta;
        cbn [after_await];
        try (eapply Hfin;
             [reflexivity .. | solve_raised
             | first [left; reflexivity | right; apply Hor]]).
      cbn [get_property]. exec.
      destruct (own_property "results" props) as [| | b | n | str | items | ps]; exec;
        cbn [after_await];
        (eapply Hfin;
         [reflexivity .. | solve_raised
         | first [left; reflexivity | right; apply Hor]]).
    + destruct data; exec; cbv zeta; cbn [after_await];
        (eapply Hfin; [reflexivity .. | solve_raised | left; reflexivity]).
Qed.

(** ** Invariants of the page in use *)

Lemma tidy_start : tidy start.
Proof.
  constructor; cbn; try tauto; try discriminate; auto.
  left. reflexivity.
Qed.

Lemma due_later (l : list (Z * timer_callback)) (t0 : Z) (x t : Z * timer_callback) :
  (forall t, In t l -> fst t <= t0) -> fst x <= t0 -> In t (l ++ [x]) -> fst t <= t0.
Proof.
  intros Hl Hx Hin. apply in_app_or in Hin as [Hin | [<- | []]]; auto.
Qed.

Lemma app_one_not_nil {A} (l : list A) (x : A) : l ++ [x] <> [].
Proof. destruct l; discriminate. Qed.

Lemma tidy_change (p : Page) (e : ChangeEvent) : tidy p -> tidy (step p (Change e)).
Proof.
  intros [Hi Hr Hm Ht Hd Hb Ho Hc Hq]. unfold step, handleFileChange.
  destruct (first_file e) as [file|]; [|constructor; cbn; assumption].
  destruct (size file >? 10 * 1024 * 1024); constructor; cbn; auto.
  - left. reflexivity.
  - intros m [= <-]. solve_raised.
  - intros _. apply app_one_not_nil.
  - intros t. apply due_later; cbn; auto. lia.
Qed.

Lemma tidy_loadend (p : Page) (i : nat) (o : read_outcome) :
  tidy p -> tidy (step p (LoadEnd i o)).
Proof.
  intros [Hi Hr Hm Ht Hd Hb Ho Hc Hq]. unfold step, loadend.
  destruct (nth_error (reads (cells p)) i) as [[f []]|]; constructor; cbn; auto.
  destruct o as [bytes|]; [right; exists f, bytes | left]; reflexivity.
Qed.

Lemma tidy_click (p : Page) : tidy p -> tidy (step p Click).
Proof.
  intros H. pose proof H as [Hi Hr Hm Ht Hd Hb Ho Hc Hq]. unfold step, button.
  cbn [disabled].
  destruct (loading (cells p)) eqn:Hl; cbn [orb]; [exact H|].
  destruct (truthy (image (cells p))) eqn:Himg; cbn [negb]; [|exact H].
  unfold handleClassify. rewrite Himg. exec.
  assert (Hnil : awaiting p = []).
  { destruct (awaiting p); [reflexivity | discriminate Hb]. }
  rewrite Hnil. constructor; cbn; auto.
  - discriminate.
  - intros img [<- | []]. exact Himg.
  - intros r Hin. apply in_app_or in Hin as [Hin | [<- | []]]; [auto|].
    destruct Hi as [Hnull | (f & bytes & Hurl)].
    + rewrite Hnull in Himg. discriminate Himg.
    + exists f, bytes. rewrite Hurl. reflexivity.
Qed.

Lemma tidy_settle (p : Page) (i : nat) (net : error + Response) :
  tidy p -> tidy (step p (Settle i net)).
Proof.
  intros H. pose proof H as [Hi Hr Hm Ht Hd Hb Ho Hc Hq]. unfold step.
  destruct (nth_error (awaiting p) i) as [img|] eqn:Hnth; [|exact H].
  destruct (settled (Some net)) eqn:Hset; [|exact H].
  assert (Himg : truthy img = true) by (eapply Hc, nth_error_In, Hnth).
  destruct (after_await_effects img net (cells p) Himg Hset)
    as (Ei & Er & El & (m & Hrm & Em) & Et & En & Eq & _).
  cbv zeta in Ei, Er, El, Em, Et, En, Eq.
  assert (Hrest : remove_nth i (awaiting p) = []).
  { destruct (awaiting p) as [|a [|b rest]]; cbn in Ho; try lia.
    - destruct i; discriminate Hnth.
    - destruct i as [|[|i]]; try discriminate Hnth; reflexivity. }
  rewrite Hrest. constructor; cbn [cells awaiting].
  - rewrite Ei. exact Hi.
  - destruct Er as [-> | Er]; auto.
  - intros m' Hm'. rewrite Em in Hm'. injection Hm' as <-. exact Hrm.
  - intros _. rewrite Et. apply app_one_not_nil.
  - intros t. rewrite Et, En. apply due_later; cbn; auto. lia.
  - rewrite El. reflexivity.
  - cbn. lia.
  - intros img' [].
  - rewrite Eq. exact Hq.
Qed.

Lemma tidy_close (p : Page) : tidy p -> tidy (step p Close).
Proof.
  intros [Hi Hr Hm Ht Hd Hb Ho Hc Hq]. constructor; cbn; auto; congruence.
Qed.

Lemma filter_none {A} (f : A -> bool) (l : list A) :
  existsb f l = false -> filter (fun x => negb (f x)) l = l.
Proof.
  induction l as [|a l IH]; cbn; [reflexivity|]. intros H.
  apply orb_false_iff in H as [Ha Hl]. rewrite Ha. cbn. now rewrite IH.
Qed.

Lemma elapse_clock (ms : Z) (s : State) :
  now (elapse ms s) = now s + ms /\
  timers (elapse ms s) = filter (fun tm => negb (due_by (now s + ms) tm)) (timers s).
Proof.
  unfold elapse.
  match goal with |- context [fold_left fire ?d ?s0] =>
    destruct (fold_fire_frame d s0) as (_ & _ & _ & _ & Hn & Ht & _)
  end.
  cbn in Hn, Ht. rewrite Hn, Ht. split; reflexivity.
Qed.

Lemma tidy_tick (p : Page) (ms : Z) : tidy p -> tidy (step p (Tick ms)).
Proof.
  intros H. pose proof H as [Hi Hr Hm Ht Hd Hb Ho Hc Hq]. unfold step.
  destruct (Z.leb_spec 0 ms) as [Hms|]; [|exact H].
  destruct (elapse_frame ms (cells p)) as (Ei & Er & El & Eq).
  destruct (elapse_clock ms (cells p)) as (En & Et).
  pose proof (elapse_message ms (cells p)) as Em.
  constructor; cbn [cells awaiting]; auto.
  - rewrite Ei. exact Hi.
  - rewrite Er. exact Hr.
  - intros m Hmsg. rewrite Em in Hmsg.
    destruct (existsb _ _); [discriminate | auto].
  - rewrite Em, Et. destruct (existsb _ _) eqn:Hex; [congruence|].
    rewrite (filter_none _ _ Hex). exact Ht.
  - intros t. rewrite Et, En. intros Hin. apply filter_In in Hin as [Hin _].
    specialize (Hd t Hin). lia.
  - rewrite El. exact Hb.
  - rewrite Eq. exact Hq.
Qed.

Lemma tidy_step (p : Page) (ev : event) : tidy p -> tidy (step p ev).
Proof.
  destruct ev; [apply tidy_change | apply tidy_loadend | apply tidy_click
               | apply tidy_settle | apply tidy_close | apply tidy_tick].
Qed.

Lemma reachable_tidy (p : Page) : reachable p -> tidy p.
Proof.
  intros [evs ->]. induction evs as [|ev evs IH] using rev_ind.
  - apply tidy_start.
  - unfold steps. rewrite fold_left_app. cbn [fold_left]. apply tidy_step, IH.
Qed.

Lemma reachable_steps (evs : list event) : reachable (steps evs start).
Proof. exists evs. reflexivity. Qed.

(** X1: in the page in use at most one classification is in flight.  The
    busy flag, and with it the spinner, is set exactly while an invocation of
    [handleClassify] waits for its request; the button is then disabled and a
    click changes nothing. *)
Theorem one_classification_in_flight (p : Page) :
  reachable p ->
  (List.length (awaiting p) <= 1)%nat /\
  (spinner (button (cells p)) = true <-> awaiting p <> []) /\
  (awaiting p <> [] ->
   disabled (button (cells p)) = true /\ step p Click = p).
Proof.
  intros Hp. destruct (reachable_tidy p Hp) as [_ _ _ _ _ Hb Ho _ _].
  cbn [button spinner disabled]. unfold step, button. cbn [disabled].
  rewrite Hb. destruct (awaiting p) as [|img rest]; cbn in Ho |- *.
  - repeat split; try lia; try congruence; try (intros H; discriminate H).
  - repeat split; try lia; try congruence; try (intros _; discriminate).
Qed.

Lemma one_classification_in_flight_witness :
  (List.length (awaiting (steps in_flight start)) <= 1)%nat /\
  (spinner (button (cells (steps in_flight start))) = true <->
   awaiting (steps in_flight start) <> []) /\
  (awaiting (steps in_flight start) <> [] ->
   disabled (button (cells (steps in_flight start))) = true /\
   step (steps in_flight start) Click = steps in_flight start).
Proof. exact (one_classification_in_flight _ (reachable_steps in_flight)). Defined.

Lemma accepted_later (evs : list event) (ev : event) (f : File) :
  accepted evs f -> accepted (evs ++ [ev]) f.
Proof.
  intros (e & Hin & Hf & Hs). exists e. split; [apply in_or_app; left; exact Hin | auto].
Qed.

Lemma was_read_later (evs : list event) (ev : event) (f : File)
    (bytes : list Byte.byte) :
  was_read evs f bytes -> was_read (evs ++ [ev]) f bytes.
Proof.
  intros (Hacc & before & i & after & Hevs & Hnth). split; [apply accepted_later, Hacc|].
  exists before, i, (after ++ [ev]). split; [|exact Hnth].
  rewrite Hevs, <- app_assoc. reflexivity.
Qed.

Lemma remove_nth_In {A} (i : nat) (l : list A) (x : A) :
  In x (remove_nth i l) -> In x l.
Proof.
  revert i. induction l as [|a l IH]; intros i; [destruct i; auto|].
  destruct i as [|i]; cbn; [auto|]. intros [-> | H]; [auto | right; eapply IH, H].
Qed.

Lemma elapse_reads (ms : Z) (s : State) : reads (elapse ms s) = reads s.
Proof.
  unfold elapse.
  match goal with |- context [fold_left fire ?d ?s0] =>
    destruct (fold_fire_frame d s0) as (_ & _ & _ & _ & _ & _ & Hr & _)
  end.
  exact Hr.
Qed.

Lemma accounted_frame (evs : list event) (ev : event) :
  accounted evs ->
  reads (cells (steps (evs ++ [ev]) start)) = reads (cells (steps evs start)) ->
  image (cells (steps (evs ++ [ev]) start)) = image (cells (steps evs start)) \/
  image (cells (steps (evs ++ [ev]) start)) = VNull ->
  requests (cells (steps (evs ++ [ev]) start)) = requests (cells (steps evs start)) ->
  accounted (evs ++ [ev]).
Proof.
  intros [Hr Hi Hq] Er Ei Eq. constructor.
  - intros f cb Hin. rewrite Er in Hin. eapply accepted_later, Hr, Hin.
  - destruct Ei as [Ei | Ei]; [|left; exact Ei]. rewrite Ei.
    destruct Hi as [Hi | (f & bytes & Hw & Hi)]; [left; exact Hi|].
    right. exists f, bytes. split; [apply was_read_later, Hw | exact Hi].
  - intros r Hin. rewrite Eq in Hin. destruct (Hq r Hin) as (f & bytes & Hw & ->).
    exists f, bytes. split; [apply was_read_later, Hw | reflexivity].
Qed.

Lemma steps_snoc (evs : list event) (ev : event) (p : Page) :
  steps (evs ++ [ev]) p = step (steps evs p) ev.
Proof. unfold steps. rewrite fold_left_app. reflexivity. Qed.

Lemma history_accounted (evs : list event) : accounted evs.
Proof.
  induction evs as [|ev evs IH] using rev_ind.
  - constructor; cbn; [tauto | left; reflexivity | tauto].
  - pose proof (reachable_tidy _ (reachable_steps evs)) as Htidy.
    set (p := steps evs start) in *.
    destruct ev as [e | i o | | i net | | ms].
    + (* the file input changes *)
      unfold handleFileChange in *.
      destruct (first_file e) as [file|] eqn:Hfile.
      * destruct (size file >? 10 * 1024 * 1024) eqn:Hsize.
        -- apply accounted_frame; [exact IH | ..]; rewrite steps_snoc; fold p;
             unfold step, handleFileChange; rewrite Hfile, Hsize;
             [reflexivity | right; reflexivity | reflexivity].
        -- assert (Hacc : accepted (evs ++ [Change e]) file).
           { exists e. split; [apply in_or_app; right; left; reflexivity|].
             split; [exact Hfile|]. rewrite Z.gtb_ltb in Hsize.
             apply Z.ltb_ge in Hsize. exact Hsize. }
           destruct IH as [Hr Hi Hq]. fold p in Hr, Hi, Hq.
           constructor; rewrite steps_snoc; fold p; unfold step, handleFileChange;
             rewrite Hfile, Hsize; cbn.
           ++ intros f cb Hin. apply in_app_or in Hin as [Hin | [[= <- <-] | []]];
                [eapply accepted_later, Hr, Hin | exact Hacc].
           ++ destruct Hi as [Hi | (f & bytes & Hw & Hi)]; [left; exact Hi|].
              right. exists f, bytes. split; [apply was_read_later, Hw | exact Hi].
           ++ intros r Hin. destruct (Hq r Hin) as (f & bytes & Hw & ->).
              exists f, bytes. split; [apply was_read_later, Hw | reflexivity].
      * apply accounted_frame; [exact IH | ..]; rewrite steps_snoc; fold p;
          unfold step, handleFileChange; rewrite Hfile;
          [reflexivity | left; reflexivity | reflexivity].
    + (* a read ends *)
      destruct (nth_error (reads (cells p)) i) as [[f []]|] eqn:Hnth.
      * destruct IH as [Hr Hi Hq]. fold p in Hr, Hi, Hq.
        constructor; rewrite steps_snoc; fold p; unfold step, loadend;
          rewrite Hnth; cbn.
        -- intros f' cb Hin. apply remove_nth_In in Hin.
           eapply accepted_later, Hr, Hin.
        -- destruct o as [bytes|]; [|left; reflexivity].
           right. exists f, bytes. split; [|reflexivity]. split.
           ++ eapply accepted_later, Hr, nth_error_In, Hnth.
           ++ exists evs, i, []. split; [reflexivity | exact Hnth].
        -- intros r Hin. destruct (Hq r Hin) as (f' & bytes & Hw & ->).
           exists f', bytes. split; [apply was_read_later, Hw | reflexivity].
      * apply accounted_frame; [exact IH | ..]; rewrite steps_snoc; fold p;
          unfold step, loadend; rewrite Hnth;
          [reflexivity | left; reflexivity | reflexivity].
    + (* the button is clicked *)
      destruct (disabled (button (cells p))) eqn:Hdis.
      * apply accounted_frame; [exact IH | ..]; rewrite steps_snoc; fold p;
          unfold step; rewrite Hdis; [reflexivity | left; reflexivity | reflexivity].
      * assert (Himg : truthy (image (cells p)) = true).
        { cbn [button disabled] in Hdis. apply orb_false_iff in Hdis as [_ H].
          apply negb_false_iff in H. exact H. }
        destruct IH as [Hr Hi Hq]. fold p in Hr, Hi, Hq.
        constructor; rewrite steps_snoc; fold p; unfold step; rewrite Hdis;
          unfold handleClassify; rewrite Himg; exec; cbn.
        -- intros f cb Hin. eapply accepted_later, Hr, Hin.
        -- destruct Hi as [Hi | (f & bytes & Hw & Hi)]; [left; exact Hi|].
           right. exists f, bytes. split; [apply was_read_later, Hw | exact Hi].
        -- intros r Hin. apply in_app_or in Hin as [Hin | [<- | []]].
           ++ destruct (Hq r Hin) as (f & bytes & Hw & ->).
              exists f, bytes. split; [apply was_read_later, Hw | reflexivity].
           ++ destruct Hi as [Hi | (f & bytes & Hw & Hi)].
              ** rewrite Hi in Himg. discriminate Himg.
              ** exists f, bytes. split; [apply was_read_later, Hw|].
                 unfold request_for. rewrite Hi. reflexivity.
    + (* a request settles *)
      destruct (nth_error (awaiting p) i) as [img|] eqn:Hnth.
      * destruct (settled (Some net)) eqn:Hset.
        -- assert (Himg : truthy img = true)
             by (eapply (tidy_closure p Htidy), nth_error_In, Hnth).
           destruct (after_await_effects img net (cells p) Himg Hset)
             as (Ei & _ & _ & _ & _ & _ & Eq & Er & _).
           cbv zeta in Ei, Eq, Er.
           apply accounted_frame; [exact IH | ..]; rewrite steps_snoc; fold p;
             unfold step; rewrite Hnth, Hset; cbn [cells];
             [exact Er | left; exact Ei | exact Eq].
        -- apply accounted_frame; [exact IH | ..]; rewrite steps_snoc; fold p;
             unfold step; rewrite Hnth, Hset;
             [reflexivity | left; reflexivity | reflexivity].
      * apply accounted_frame; [exact IH | ..]; rewrite steps_snoc; fold p;
          unfold step; rewrite Hnth; [reflexivity | left; reflexivity | reflexivity].
    + (* the message box is closed *)
      apply accounted_frame; [exact IH | ..]; rewrite steps_snoc; fold p;
        [reflexivity | left; reflexivity | reflexivity].
    + (* time passes *)
      destruct (0 <=? ms) eqn:Hms.
      * destruct (elapse_frame ms (cells p)) as (Ei & _ & _ & Eq).
        apply accounted_frame; [exact IH | ..]; rewrite steps_snoc; fold p;
          unfold step; rewrite Hms; cbn [cells];
          [apply elapse_reads | left; exact Ei | exact Eq].
      * apply accounted_frame; [exact IH | ..]; rewrite steps_snoc; fold p;
          unfold step; rewrite Hms; [reflexivity | left; reflexivity | reflexivity].
Qed.

(** X2: whatever the user has done, the payload is [null] or the data URL of
    a file that was read: a file that was picked and passed the size check,
    with the bytes its read ended with.  A preview, when there is one, shows
    exactly that data URL, and the button is enabled only over one. *)
Theorem payload_was_read (evs : list event) :
  let s := cells (steps evs start) in
  (image s = VNull \/
   exists f bytes, was_read evs f bytes /\ image s = VStr (dataURL f bytes)) /\
  preview s = match image s with VStr url => Some url | _ => None end /\
  (disabled (button s) = false ->
   exists f bytes, was_read evs f bytes /\ image s = VStr (dataURL f bytes)).
Proof.
  cbv zeta. destruct (history_accounted evs) as [_ Hi _].
  split; [exact Hi|]. unfold preview. cbn [button disabled].
  destruct Hi as [Hi | (f & bytes & Hw & Hi)]; rewrite Hi.
  - split; [reflexivity|]. rewrite orb_true_r. discriminate.
  - rewrite dataURL_truthy. split; [reflexivity|]. intros _. exists f, bytes. auto.
Qed.

Lemma payload_was_read_witness :
  let s := cells (steps session start) in
  (image s = VNull \/
   exists f bytes, was_read session f bytes /\ image s = VStr (dataURL f bytes)) /\
  preview s = match image s with VStr url => Some url | _ => None end /\
  (disabled (button s) = false ->
   exists f bytes, was_read session f bytes /\ image s = VStr (dataURL f bytes)).
Proof. exact (payload_was_read session). Defined.

(** The history tells the files apart: in the sample session the payload is
    the photo with the bytes its read delivered. *)
Example session_payload :
  image (cells (steps session start)) = VStr (dataURL photo bottle_bytes) /\
  was_read session photo bottle_bytes.
Proof.
  split; [reflexivity|]. split.
  - exists (pick photo). split; [left; reflexivity | split; [reflexivity | discriminate]].
  - exists [Change (pick photo)], 0%nat, [Click; Tick 800; Settle 0 answer_plastic].
    split; reflexivity.
Qed.

(** X3: every request the page has sent is a POST to the one endpoint, with a
    JSON content type, whose body is [{ imageData }] holding the data URL of
    a file that was read: picked, within the size limit, with the bytes its
    read ended with. *)
Theorem requests_were_read (evs : list event) (r : string * RequestInit) :
  In r (requests (cells (steps evs start))) ->
  exists f bytes, was_read evs f bytes /\ r = request_for f bytes.
Proof. apply (accounted_requests evs (history_accounted evs)). Qed.

Lemma requests_were_read_witness :
  exists f bytes,
    was_read session f bytes /\
    (endpoint,
     {| method := "POST"; headers := [("Content-Type", "application/json")];
        body := VObj [("imageData", VStr (dataURL photo bottle_bytes))] |})
    = request_for f bytes.
Proof.
  apply (requests_were_read session). left. reflexivity.
Defined.

(** X4: in the page in use the result is [null] or truthy, never another
    falsy value: the result panel is left out exactly when the result is
    [null]. *)
Theorem result_null_or_truthy (p : Page) :
  reachable p ->
  (result (cells p) = VNull \/ truthy (result (cells p)) = true) /\
  (resultPanel (cells p) = None <-> result (cells p) = VNull).
Proof.
  intros Hp. destruct (reachable_tidy p Hp) as [_ Hr _ _ _ _ _ _ _].
  split; [exact Hr|]. unfold resultPanel. destruct Hr as [Hr | Hr]; rewrite Hr.
  - split; reflexivity.
  - split; [discriminate|]. intros Hn. rewrite Hn in Hr. discriminate Hr.
Qed.

Lemma result_null_or_truthy_witness :
  (result (cells (steps session start)) = VNull \/
   truthy (result (cells (steps session start))) = true) /\
  (resultPanel (cells (steps session start)) = None <->
   result (cells (steps session start)) = VNull).
Proof. exact (result_null_or_truthy _ (reachable_steps session)). Defined.

(** X5: in the page in use a notification is an error or a success, never an
    info: the button is disabled while there is no payload, so "Please upload
    an image first." never appears.  [MessageBox] returns an element for it,
    with the cross for an error and the check mark for a success, whose child
    is the notification's text.  When the text is a string, as every fixed
    message and every string [error] of the service is, React paints that
    string, which is not empty; when it is an object, painting the child makes
    React throw; when it is [true], nothing is painted. *)
Theorem notifications_are_displayed (p : Page) :
  reachable p ->
  match message (cells p) with
  | None => messageBox (cells p) = None
  | Some m =>
      type m <> "info" /\
      exists alert,
        messageBox (cells p) = Some alert /\
        content alert = text m /\
        ((type m = "error" /\ icon alert = X) \/
         (type m = "success" /\ icon alert = CheckCircle)) /\
        (forall str, text m = VStr str ->
                     renderChild (content alert) = Painted str /\ str <> "") /\
        (forall props, text m = VObj props -> renderChild (content alert) = Crash) /\
        (text m = VBool true -> renderChild (content alert) = Painted "")
  end.
Proof.
  intros Hp. destruct (reachable_tidy p Hp) as [_ _ Hm _ _ _ _ _ _].
  unfold messageBox. destruct (message (cells p)) as [m|]; [|reflexivity].
  destruct (Hm m eq_refl) as [Htext Hty]. destruct m as [ty txt]. cbn [type text] in *.
  unfold js_or at 2. rewrite Htext. unfold MessageBox. rewrite Htext. cbn [negb].
  assert (Hpaint :
    (forall str, txt = VStr str -> renderChild txt = Painted str /\ str <> "") /\
    (forall props, txt = VObj props -> renderChild txt = Crash) /\
    (txt = VBool true -> renderChild txt = Painted "")).
  { split; [|split].
    - intros str ->. split; [reflexivity|]. intros ->. discriminate Htext.
    - intros props ->. reflexivity.
    - intros ->. reflexivity. }
  destruct Hty as [-> | ->].
  - split; [discriminate|]. eexists. split; [reflexivity|]. split; [reflexivity|].
    split; [left; split; reflexivity | exact Hpaint].
  - split; [discriminate|]. eexists. split; [reflexivity|]. split; [reflexivity|].
    split; [right; split; reflexivity | exact Hpaint].
Qed.

Lemma notifications_are_displayed_witness :
  match message (cells (steps session start)) with
  | None => messageBox (cells (steps session start)) = None
  | Some m =>
      type m <> "info" /\
      exists alert,
        messageBox (cells (steps session start)) = Some alert /\
        content alert = text m /\
        ((type m = "error" /\ icon alert = X) \/
         (type m = "success" /\ icon alert = CheckCircle)) /\
        (forall str, text m = VStr str ->
                     renderChild (content alert) = Painted str /\ str <> "") /\
        (forall props, text m = VObj props -> renderChild (content alert) = Crash) /\
        (text m = VBool true -> renderChild (content alert) = Painted "")
  end.
Proof. exact (notifications_are_displayed _ (reachable_steps session)). Defined.

(** Both cases occur.  After the sample session the box paints "Image
    classified successfully!"; after an error answer whose [error] is an
    object, painting the box throws. *)
Example message_box_paints :
  option_map (fun a => renderChild (content a)) (messageBox (cells (steps session start)))
  = Some (Painted "Image classified successfully!") /\
  option_map (fun a => renderChild (content a))
    (messageBox (cells (steps (in_flight ++
       [Settle 0 (inr {| status := 500;
                         json := Some (inr (VObj [("error", VObj [("code", VStr "E7")])])) |})])
       start)))
  = Some Crash.
Proof. split; reflexivity. Qed.

(** X6: in the page in use no notification stays longer than 5 seconds:
    whatever is displayed, once 5000 ms or more have passed without another
    event the message box is empty. *)
Theorem notification_expires (p : Page) (ms : Z) :
  reachable p ->
  5000 <= ms ->
  message (cells (step p (Tick ms))) = None /\
  messageBox (cells (step p (Tick ms))) = None.
Proof.
  intros Hp Hms. destruct (reachable_tidy p Hp) as [_ _ _ Ht Hd _ _ _ _].
  assert (Hnone : message (cells (step p (Tick ms))) = None).
  { unfold step. destruct (Z.leb_spec 0 ms); [|lia]. cbn [cells].
    rewrite elapse_message. destruct (message (cells p)) as [m|] eqn:Hm.
    - destruct (timers (cells p)) as [|t rest] eqn:Htm; [now exfalso; apply Ht|].
      cbn [existsb]. unfold due_by at 1.
      assert (fst t <= now (cells p) + ms) by (specialize (Hd t (or_introl eq_refl)); lia).
      destruct (Z.leb_spec (fst t) (now (cells p) + ms)); [reflexivity | lia].
    - destruct (existsb _ _); reflexivity. }
  split; [exact Hnone|]. unfold messageBox. rewrite Hnone. reflexivity.
Qed.

Lemma notification_expires_witness :
  message (cells (step (steps session start) (Tick 5000))) = None /\
  messageBox (cells (step (steps session start) (Tick 5000))) = None.
Proof.
  apply (notification_expires (steps session start) 5000).
  - apply reachable_steps.
  - lia.
Defined.

(** ** More on the handlers *)

(** X7: whatever the payload and whatever the network does, [handleClassify]
    never throws (its promise never rejects); it sends one request, carrying
    the payload, when there is a payload and none otherwise; and it never
    writes the payload, the file input or the reads in progress. *)
Theorem handleClassify_contained (img : value) (net : option (error + Response))
    (s : State) :
  let l := log (handleClassify img net) in
  (forall e, outcome (handleClassify img net) <> Thrown e) /\
  network_calls l =
    (if truthy img then
       [(endpoint,
         {| method := "POST"; headers := [("Content-Type", "application/json")];
            body := VObj [("imageData", img)] |})]
     else []) /\
  image (run l s) = image s /\
  inputValue (run l s) = inputValue s /\
  reads (run l s) = reads s.
Proof.
  cbv zeta. unfold handleClassify. destruct (truthy img) eqn:Himg; cbn [negb].
  - destruct net as [[e | [st [[e' | data] |]]] |]; exec; cbn [json]; exec;
      try (repeat split; intros e0; discriminate).
    destruct (ok {| status := st; json := Some (inr data) |}); exec.
    + destruct data as [| | b | n | str | items | props]; exec;
        try (repeat split; intros e0; discriminate).
      cbn [get_property]. exec.
      destruct (own_property "results" props); exec;
        repeat split; intros e0; discriminate.
    + destruct data; exec; repeat split; intros e0; discriminate.
  - repeat split. intros e0; discriminate.
Qed.



(** X9: on an error answer the console receives the body's [details] when
    that is truthy and the whole body otherwise, under the label
    "Classification API Error:"; the notification shows the error text, not
    the details. *)
Theorem handleClassify_logs_details (img : value) (res : Response)
    (data err details : value) (s : State) :
  truthy img = true ->
  ok res = false ->
  json res = Some (inr data) ->
  get_property data "error" = inr err ->
  get_property data "details" = inr details ->
  let l := log (handleClassify img (Some (inr res))) in
  console (run l s) =
    console s ++ [("Classification API Error:",
                   inl (if truthy details then details else data))] /\
  message (run l s) =
    Some {| type := "error";
            text := if truthy err then err
                    else VStr "An unknown classification error occurred." |}.
Proof.
  intros Himg Hok Hjson Herr Hdet. unfold handleClassify. rewrite Himg. exec.
  rewrite Hjson. exec. rewrite Hok. exec. rewrite Herr. exec. rewrite Hdet. exec.
  unfold js_or. cbv zeta. split; reflexivity.
Qed.

Lemma handleClassify_logs_details_witness :
  let data := VObj [("error", VStr "Model not loaded"); ("details", VStr "timeout")] in
  let l := log (handleClassify payload
                  (Some (inr {| status := 500; json := Some (inr data) |}))) in
  console (run l shown) =
    console shown ++ [("Classification API Error:",
                       inl (if truthy (VStr "timeout") then VStr "timeout" else data))] /\
  message (run l shown) =
    Some {| type := "error";
            text := if truthy (VStr "Model not loaded") then VStr "Model not loaded"
                    else VStr "An unknown classification error occurred." |}.
Proof.
  exact (handleClassify_logs_details payload
           {| status := 500;
              json := Some (inr (VObj [("error", VStr "Model not loaded");
                                       ("details", VStr "timeout")])) |}
           (VObj [("error", VStr "Model not loaded"); ("details", VStr "timeout")])
           (VStr "Model not loaded") (VStr "timeout") shown
           eq_refl eq_refl eq_refl eq_refl eq_refl).
Defined.

(** X10: [handleFileChange] looks at the size of the first file and at
    nothing else.  A file of at most 10 MiB, the limit included, is read
    whatever its type, image or not, and becomes the payload when the read
    completes; the selection sends no request, raises no notification and
    leaves the busy flag alone. *)
Theorem handleFileChange_ignores_type (e : ChangeEvent) (file : File) (s : State)
    (bytes : list Byte.byte) :
  first_file e = Some file ->
  size file <= 10 * 1024 * 1024 ->
  let l := log (handleFileChange e) in
  let s2 := loadend (List.length (reads s)) (ReadDone bytes) (run l s) in
  l = [ReadAsDataURL file StoreReaderResult; SetResult VNull] /\
  image s2 = VStr (dataURL file bytes) /\
  truthy (image s2) = true /\
  disabled (button s2) = loading s.
Proof.
  intros Hfile Hsize. unfold handleFileChange. rewrite Hfile.
  assert (Hle : (size file >? 10 * 1024 * 1024) = false)
    by (rewrite Z.gtb_ltb; apply Z.ltb_ge; lia).
  rewrite Hle. cbv zeta. split; [reflexivity|].
  cbn [log fst bind emit app run fold_left apply_effect].
  unfold loadend. cbn [reads].
  rewrite nth_error_app2 by lia. rewrite Nat.sub_diag.
  cbn [nth_error run fold_left apply_effect image reader_result button disabled loading].
  rewrite dataURL_truthy. repeat split. apply orb_false_r.
Qed.

Lemma handleFileChange_ignores_type_witness :
  let l := log (handleFileChange (pick manual)) in
  let s2 := loadend (List.length (reads initial)) (ReadDone bottle_bytes) (run l initial) in
  l = [ReadAsDataURL manual StoreReaderResult; SetResult VNull] /\
  image s2 = VStr (dataURL manual bottle_bytes) /\
  truthy (image s2) = true /\
  disabled (button s2) = loading initial.
Proof.
  apply (handleFileChange_ignores_type (pick manual) manual initial bottle_bytes).
  - reflexivity.
  - discriminate.
Defined.

(** X11: rejecting an oversized file does not stop a read that is in
    progress.  The payload is [null] right after the rejection, and when the
    earlier read completes the earlier file becomes the payload all the
    same. *)
Theorem rejected_file_keeps_pending_read (e : ChangeEvent) (big f : File)
    (i : nat) (bytes : list Byte.byte) (s : State) :
  first_file e = Some big ->
  size big > 10 * 1024 * 1024 ->
  nth_error (reads s) i = Some (f, StoreReaderResult) ->
  let s1 := run (log (handleFileChange e)) s in
  image s1 = VNull /\
  reads s1 = reads s /\
  image (loadend i (ReadDone bytes) s1) = VStr (dataURL f bytes) /\
  disabled (button (loadend i (ReadDone bytes) s1)) = loading s.
Proof.
  intros Hfile Hsize Hread.
  assert (Hgt : (size big >? 10 * 1024 * 1024) = true)
    by (rewrite Z.gtb_ltb; apply Z.ltb_lt; lia).
  assert (Hlog : log (handleFileChange e)
                 = [SetMessage (Some (failure "File size exceeds the 10MB limit."));
                    SetTimeout ClearMessage 5000; SetInputValue ""; SetImage VNull]).
  { unfold handleFileChange. rewrite Hfile, Hgt. reflexivity. }
  cbv zeta. rewrite Hlog. clear Hlog.
  set (s1 := run _ s).
  assert (Hreads : reads s1 = reads s) by reflexivity.
  assert (Hload : loading s1 = loading s) by reflexivity.
  split; [reflexivity|]. split; [exact Hreads|].
  unfold loadend. rewrite Hreads, Hread.
  cbn [run fold_left apply_effect image reader_result button disabled loading].
  rewrite dataURL_truthy, Hload. split; [reflexivity | apply orb_false_r].
Qed.

Lemma rejected_file_keeps_pending_read_witness :
  let s := run (log (handleFileChange (pick photo))) initial in
  let s1 := run (log (handleFileChange (pick scan))) s in
  image s1 = VNull /\
  reads s1 = reads s /\
  image (loadend 0 (ReadDone bottle_bytes) s1) = VStr (dataURL photo bottle_bytes) /\
  disabled (button (loadend 0 (ReadDone bottle_bytes) s1)) = loading s.
Proof.
  apply (rejected_file_keeps_pending_read (pick scan) scan photo 0 bottle_bytes
           (run (log (handleFileChange (pick photo))) initial)).
  - reflexivity.
  - reflexivity.
  - reflexivity.
Defined.

(** X12: picking a new file while a classification is in flight clears the
    result only for the moment.  When the answer to the earlier request
    arrives it stores its predictions and clears the busy flag, although the
    read of the new file is still in progress. *)
Theorem late_answer_after_new_file (img : value) (e : ChangeEvent) (file : File)
    (res : Response) (data results predictions : value) (s : State) :
  truthy img = true ->
  first_file e = Some file ->
  size file <= 10 * 1024 * 1024 ->
  ok res = true ->
  json res = Some (inr data) ->
  get_property data "results" = inr results ->
  get_optional results "predictions" = inr predictions ->
  let l := log (handleClassify img (Some (inr res))) in
  let s1 := run (before_await l) s in
  let s2 := run (log (handleFileChange e)) s1 in
  let s3 := run (after_await l) s2 in
  result s2 = VNull /\
  reads s2 = reads s ++ [(file, StoreReaderResult)] /\
  result s3 = (if truthy predictions then predictions else VArr []) /\
  reads s3 = reads s2 /\
  loading s3 = false /\
  message s3 = Some (success "Image classified successfully!").
Proof.
  intros Himg Hfile Hsize Hok Hjson Hres Hpred. cbv zeta.
  rewrite (handleClassify_prologue img Himg).
  unfold handleClassify. rewrite Himg. exec.
  rewrite Hjson. exec. rewrite Hok. exec. rewrite Hres. exec. rewrite Hpred. exec.
  cbn [after_await]. unfold handleFileChange. rewrite Hfile.
  assert (Hle : (size file >? 10 * 1024 * 1024) = false)
    by (rewrite Z.gtb_ltb; apply Z.ltb_ge; lia).
  rewrite Hle. unfold js_or. repeat split.
Qed.

Lemma late_answer_after_new_file_witness :
  let res := {| status := 200;
                json := Some (inr (VObj [("results",
                          VObj [("predictions", VArr [entry "plastic" 0.912])])])) |} in
  let l := log (handleClassify payload (Some (inr res))) in
  let s1 := run (before_await l) shown in
  let s2 := run (log (handleFileChange (pick manual))) s1 in
  let s3 := run (after_await l) s2 in
  result s2 = VNull /\
  reads s2 = reads shown ++ [(manual, StoreReaderResult)] /\
  result s3 = (if truthy (VArr [entry "plastic" 0.912])
               then VArr [entry "plastic" 0.912] else VArr []) /\
  reads s3 = reads s2 /\
  loading s3 = false /\
  message s3 = Some (success "Image classified successfully!").
Proof.
  exact (late_answer_after_new_file payload (pick manual) manual
           {| status := 200;
              json := Some (inr (VObj [("results",
                        VObj [("predictions", VArr [entry "plastic" 0.912])])])) |}
           (VObj [("results", VObj [("predictions", VArr [entry "plastic" 0.912])])])
           (VObj [("predictions", VArr [entry "plastic" 0.912])])
           (VArr [entry "plastic" 0.912]) shown
           eq_refl eq_refl ltac:(discriminate) eq_refl eq_refl eq_refl eq_refl).
Defined.

(** ** More on rendering *)

Lemma map_from_scored_prefix (pre rest : list value) (start : nat) :
  forallb scored pre = true ->
  map_from format_item start (pre ++ rest) =
  match map_from format_item start pre,
        map_from format_item (start + List.length pre) rest with
  | Value l1, Value l2 => Value (l1 ++ l2)
  | Value _, Throws e => Throws e
  | Value _, Unmodelled => Unmodelled
  | other, _ => other
  end.
Proof.
  revert start. induction pre as [|item pre IH]; intros start Hall.
  - cbn. rewrite Nat.add_0_r. destruct (map_from format_item start rest); reflexivity.
  - cbn [forallb] in Hall. apply andb_true_iff in Hall as [Hitem Hall].
    destruct (format_item_scored item start Hitem) as (line & digits & Hf & _).
    cbn [app map_from List.length]. rewrite Hf, (IH (S start) Hall).
    replace (start + S (List.length pre))%nat with (S start + List.length pre)%nat by lia.
    destruct (map_from_scored pre (S start) Hall) as (lines & -> & _).
    destruct (map_from format_item (S start + List.length pre) rest); reflexivity.
Qed.

(** X13: a [null] among the entries makes [formatResults] throw: when the
    entries before it are well formed, the call ends with the TypeError of
    reading [class] on [null], and no line is rendered, those of the entries
    before it included. *)
Theorem formatResults_null_entry (pre post : list value) :
  forallb scored pre = true ->
  formatResults (VArr (pre ++ VNull :: post))
  = Throws (TypeError "Cannot read properties of null (reading 'class')").
Proof.
  intros Hall. unfold formatResults. cbn [truthy isArray negb orb].
  rewrite (map_from_scored_prefix pre (VNull :: post) 0 Hall).
  destruct (map_from_scored pre 0 Hall) as (lines & -> & _). reflexivity.
Qed.

Lemma formatResults_null_entry_witness :
  formatResults (VArr ([entry "plastic" 0.912] ++ VNull :: [entry "paper" 0.5]))
  = Throws (TypeError "Cannot read properties of null (reading 'class')").
Proof.
  exact (formatResults_null_entry [entry "plastic" 0.912] [entry "paper" 0.5] eq_refl).
Defined.

Lemma toFixed_printable (x : float) :
  printable x = true -> exists digits, toFixed 2 x = Some digits.
Proof.
  unfold printable, toFixed.
  destruct (Prim2SF x) as [sg | [] | | sg m e]; intros H; try (eexists; reflexivity).
  apply negb_true_iff in H. rewrite H. eexists; reflexivity.
Qed.

Lemma format_item_plain (item : value) (index : nat) :
  plain_entry item = true ->
  exists line,
    format_item item index = Value line /\
    key line = index /\
    get_property item "class" = inr (label line).
Proof.
  intros H. unfold format_item.
  assert (Hconf : forall conf,
            match conf with
            | VUndefined | VNull | VBool _ => true
            | VNum c => printable (PrimFloat.mul c 100%float)
            | _ => false
            end = true ->
            exists digits x, times100 conf = Some x /\ toFixed 2 x = Some digits).
  { intros [| | [] | c | str | items | props] Hc.
    - do 2 eexists; split; [reflexivity | vm_compute; reflexivity].
    - do 2 eexists; split; [reflexivity | vm_compute; reflexivity].
    - do 2 eexists; split; [reflexivity | vm_compute; reflexivity].
    - do 2 eexists; split; [reflexivity | vm_compute; reflexivity].
    - destruct (toFixed_printable _ Hc) as [digits Hd].
      exists digits. eexists. split; [reflexivity | exact Hd].
    - discriminate Hc.
    - discriminate Hc.
    - discriminate Hc. }
  assert (Hprim : exists digits x,
            times100 VUndefined = Some x /\ toFixed 2 x = Some digits)
    by (apply Hconf; reflexivity).
  destruct Hprim as (digits0 & x0 & Hx0 & Hd0).
  destruct item as [| | b | n | str | items | props]; try discriminate H;
    cbn [get_property];
    try (rewrite Hx0, Hd0; eexists; repeat split).
  destruct (Hconf (own_property "confidence" props) H) as (digits & x & -> & ->).
  eexists; repeat split.
Qed.

(** X14: on entries that are not predictions but are not [null] either,
    [formatResults] does not throw: for an array whose entries are neither
    [null] nor [undefined], each with a confidence that is missing, [null], a
    boolean, or a number whose product with 100 is not a finite number of
    magnitude 10^21 or more, it returns exactly one line per entry, in order,
    keyed by position and labelled with the entry's [class]. *)
Theorem formatResults_returns_on_plain_entries (items : list value) :
  forallb plain_entry items = true ->
  exists lines,
    formatResults (VArr items) = Value (Lines lines) /\
    List.length lines = List.length items /\
    forall i item, nth_error items i = Some item ->
      exists line,
        nth_error lines i = Some line /\
        key line = i /\
        get_property item "class" = inr (label line).
Proof.
  intros Hall. unfold formatResults. cbn [truthy isArray negb orb].
  assert (H : forall start,
            exists lines,
              map_from format_item start items = Value lines /\
              List.length lines = List.length items /\
              forall i item, nth_error items i = Some item ->
                exists line,
                  nth_error lines i = Some line /\
                  key line = (start + i)%nat /\
                  get_property item "class" = inr (label line)).
  { induction items as [|item items IH]; intros start.
    - exists []. repeat split. intros [|i] item Hi; discriminate Hi.
    - cbn [forallb] in Hall. apply andb_true_iff in Hall as [Hitem Hall].
      destruct (format_item_plain item start Hitem) as (line & Hf & Hk & Hc).
      destruct (IH Hall (S start)) as (lines & Hm & Hlen & Hnth).
      exists (line :: lines). cbn [map_from]. rewrite Hf, Hm. repeat split.
      + cbn. now rewrite Hlen.
      + intros [|i] item' Hi; cbn [nth_error] in Hi |- *.
        * injection Hi as <-. exists line. rewrite Nat.add_0_r. auto.
        * destruct (Hnth i item' Hi) as (line' & H1 & H2 & H3).
          exists line'. repeat split; auto. rewrite H2. lia. }
  destruct (H 0%nat) as (lines & -> & Hlen & Hnth). exists lines. repeat split; auto.
Qed.

Lemma formatResults_returns_on_plain_entries_witness :
  exists lines,
    formatResults (VArr [VObj [("class", VStr "glass")]; VStr "tin";
                         VObj [("confidence", VBool true)]])
    = Value (Lines lines) /\
    List.length lines = 3%nat /\
    forall i item,
      nth_error [VObj [("class", VStr "glass")]; VStr "tin";
                 VObj [("confidence", VBool true)]] i = Some item ->
      exists line,
        nth_error lines i = Some line /\
        key line = i /\
        get_property item "class" = inr (label line).
Proof.
  exact (formatResults_returns_on_plain_entries
           [VObj [("class", VStr "glass")]; VStr "tin";
            VObj [("confidence", VBool true)]] eq_refl).
Defined.

(** X15: an entry that is an object is rendered even when its confidence is
    not a number: a missing confidence is shown as "NaN%", [null] and [false]
    as "0.00%", [true] as "100.00%".  The label is the entry's [class], or
    [undefined] when there is none. *)
Theorem format_item_without_number (props : list (string * value)) (index : nat) :
  let line pct := Value {| key := index; label := own_property "class" props;
                           confidence := pct |} in
  (own_property "confidence" props = VUndefined ->
   format_item (VObj props) index = line "NaN%") /\
  (own_property "confidence" props = VNull ->
   format_item (VObj props) index = line "0.00%") /\
  (own_property "confidence" props = VBool false ->
   format_item (VObj props) index = line "0.00%") /\
  (own_property "confidence" props = VBool true ->
   format_item (VObj props) index = line "100.00%").
Proof.
  cbv zeta. unfold format_item. cbn [get_property].
  repeat split; intros ->; reflexivity.
Qed.

Lemma format_item_without_number_witness :
  format_item (VObj [("class", VStr "glass")]) 3
  = Value {| key := 3; label := own_property "class" [("class", VStr "glass")];
             confidence := "NaN%" |}.
Proof.
  exact (proj1 (format_item_without_number [("class", VStr "glass")] 3) eq_refl).
Defined.

(** ** Closing the message box *)


(** ** Submitting *)

(** X17: a click on the enabled button of the page in use at once sets the
    busy flag, removes the previous result and notification from the screen,
    and sends one request carrying the payload on display; the invocation
    then waits for the answer. *)
Theorem click_submits (p : Page) :
  reachable p ->
  disabled (button (cells p)) = false ->
  let p' := step p Click in
  awaiting p' = [image (cells p)] /\
  spinner (button (cells p')) = true /\
  disabled (button (cells p')) = true /\
  resultPanel (cells p') = None /\
  messageBox (cells p') = None /\
  image (cells p') = image (cells p) /\
  requests (cells p') =
    requests (cells p) ++
    [(endpoint,
      {| method := "POST"; headers := [("Content-Type", "application/json")];
         body := VObj [("imageData", image (cells p))] |})].
Proof.
  intros Hp Hen. destruct (reachable_tidy p Hp) as [_ _ _ _ _ Hb _ _ _].
  cbv zeta. unfold step. rewrite Hen.
  cbn [button disabled] in Hen. apply orb_false_iff in Hen as [Hl Himg].
  apply negb_false_iff in Himg.
  assert (Hnil : awaiting p = []).
  { rewrite Hl in Hb. destruct (awaiting p); [reflexivity | discriminate Hb]. }
  unfold handleClassify. rewrite Himg, Hnil. exec. repeat split.
Qed.

Lemma click_submits_witness :
  let p := steps [Change (pick photo); LoadEnd 0 (ReadDone bottle_bytes)] start in
  let p' := step p Click in
  awaiting p' = [image (cells p)] /\
  spinner (button (cells p')) = true /\
  disabled (button (cells p')) = true /\
  resultPanel (cells p') = None /\
  messageBox (cells p') = None /\
  image (cells p') = image (cells p) /\
  requests (cells p') =
    requests (cells p) ++
    [(endpoint,
      {| method := "POST"; headers := [("Content-Type", "application/json")];
         body := VObj [("imageData", image (cells p))] |})].
Proof.
  apply (click_submits (steps [Change (pick photo); LoadEnd 0 (ReadDone bottle_bytes)] start)).
  - apply reachable_steps.
  - reflexivity.
Defined.

Lemma busy_step (p : Page) (ev : event) :
  is_settle ev = false -> loading (cells p) = true ->
  loading (cells (step p ev)) = true.
Proof.
  intros Hev Hl. destruct ev as [e | i o | | i net | | ms]; try discriminate Hev;
    unfold step.
  - unfold handleFileChange. destruct (first_file e) as [file|]; [|exact Hl].
    destruct (size file >? 10 * 1024 * 1024); exact Hl.
  - unfold loadend. destruct (nth_error (reads (cells p)) i) as [[f []]|]; exact Hl.
  - cbn [button disabled]. rewrite Hl. exact Hl.
  - exact Hl.
  - destruct (0 <=? ms); [|exact Hl]. cbn [cells].
    destruct (elapse_frame ms (cells p)) as (_ & _ & El & _). rewrite El. exact Hl.
Qed.

(** X18: there is no way to cancel.  Once the page is busy, no sequence of
    file selections, reads ending, clicks, closings of the message box and
    passing time clears the busy flag: the button stays disabled until the
    request settles, for ever if it never does. *)
Theorem busy_until_settled (p : Page) (evs : list event) :
  loading (cells p) = true ->
  forallb (fun ev => negb (is_settle ev)) evs = true ->
  loading (cells (steps evs p)) = true /\
  disabled (button (cells (steps evs p))) = true.
Proof.
  intros Hl Hevs.
  assert (H : loading (cells (steps evs p)) = true).
  { revert p Hl. induction evs as [|ev evs IH]; intros p Hl; [exact Hl|].
    cbn [forallb] in Hevs. apply andb_true_iff in Hevs as [Hev Hevs].
    apply negb_true_iff in Hev. cbn [steps fold_left].
    apply (IH Hevs). apply busy_step; assumption. }
  split; [exact H|]. cbn [button disabled]. rewrite H. reflexivity.
Qed.

Lemma busy_until_settled_witness :
  loading (cells (steps [Tick 60000; Click; Close; Change (pick scan)]
                    (steps in_flight start))) = true /\
  disabled (button (cells (steps [Tick 60000; Click; Close; Change (pick scan)]
                             (steps in_flight start)))) = true.
Proof.
  exact (busy_until_settled (steps in_flight start)
           [Tick 60000; Click; Close; Change (pick scan)] eq_refl eq_refl).
Defined.
